(** * Drug Repurposing Using Knowledge Graphs: the Streamlit dashboard

    A shallow embedding of [streamlit_app.py].  The script is re-executed from
    top to bottom on every user interaction; one execution is modelled as a
    computation in a small state/exception/trace monad:

    - the state holds [st.session_state] (which survives from one execution
      to the next) and the heap of file objects opened by the execution;
    - a Python exception is a value of [exn], propagated by [bind] and
      intercepted only by [try_except];
    - the trace lists, in order, what the execution did to the outside:
      the elements it asked Streamlit to draw, the paths it passed to
      [open] and [pd.read_csv], and the prompts it sent to the
      text-generation gateway.

    What lies outside the repository (the artifact files, the gateway, the
    pandas parser, serializer and plotter) is gathered in the record [env]. *)

From stdpp Require Import gmap strings list fin_maps.
From Stdlib Require Import String Ascii List ZArith QArith.
Import ListNotations.

Close Scope Q_scope.
Open Scope string_scope.
Open Scope list_scope.

(** ** Python values used by the script *)

(** The double-quote character, for markup that contains it. *)
Definition dq : string := String (ascii_of_nat 34) EmptyString.

(** Truth value of a [str]: only the empty string is falsy. *)
Definition truthy (s : string) : bool :=
  match s with
  | EmptyString => false
  | String _ _ => true
  end.

(** Truth value of a value that is either [None] or a [str]. *)
Definition truthy_opt (o : option string) : bool :=
  match o with
  | None => false
  | Some s => truthy s
  end.

(** An instance of a subclass of [Exception]: its class and [str(e)]. *)
Record exn : Type := Exception { exn_class : string; exn_str : string }.

Definition ValueError (msg : string) : exn := Exception "ValueError" msg.

Definition KeyError (key : string) : exn :=
  Exception "KeyError" ("'" ++ key ++ "'").

Definition FileNotFoundError (filename : string) : exn :=
  Exception "FileNotFoundError"
            ("[Errno 2] No such file or directory: '" ++ filename ++ "'").

Inductive result (A : Type) : Type :=
| Ok (a : A)
| Raise (e : exn).

Arguments Ok {A} a.
Arguments Raise {A} e.

(** ** Tables (pandas [DataFrame]) *)

(** A cell of a table read from CSV: text, a number, or a missing value. *)
Inductive cell : Type :=
| Str (s : string)
| Num (x : Q)
| NaN.

(** [cell == key] for a [str] key: only a text cell with the same characters
    compares equal. *)
Definition cell_eq_str (c : cell) (key : string) : bool :=
  match c with
  | Str s => String.eqb s key
  | Num _ => false
  | NaN => false
  end.

Record DataFrame : Type := {
  columns : list string;
  rows : list (list cell)
}.

(** Position of the first column called [name]. *)
Fixpoint column_index (name : string) (cols : list string) : option nat :=
  match cols with
  | [] => None
  | c :: cols' =>
      if String.eqb c name then Some 0
      else match column_index name cols' with
           | Some i => Some (S i)
           | None => None
           end
  end.

(** [df[name]]: the cells of one column, top to bottom. *)
Definition getitem_column (df : DataFrame) (name : string) : result (list cell) :=
  match column_index name (columns df) with
  | Some i => Ok (map (fun r => nth i r NaN) (rows df))
  | None => Raise (KeyError name)
  end.

(** [series == key]: elementwise comparison with a string. *)
Definition series_eq (s : list cell) (key : string) : list bool :=
  map (fun c => cell_eq_str c key) s.

(** Rows kept by a boolean mask, in their original order. *)
Fixpoint select_rows (rs : list (list cell)) (mask : list bool) : list (list cell) :=
  match rs, mask with
  | r :: rs', b :: mask' =>
      if b then r :: select_rows rs' mask' else select_rows rs' mask'
  | _, _ => []
  end.

(** [df[mask]]: boolean indexing. *)
Definition getitem_mask (df : DataFrame) (mask : list bool) : DataFrame :=
  {| columns := columns df; rows := select_rows (rows df) mask |}.

(** One row restricted to the columns at the given positions. *)
Definition project_row (idx : list nat) (r : list cell) : list cell :=
  map (fun i => nth i r NaN) idx.

(** Positions of the named columns, or the first name that is missing. *)
Fixpoint column_indices (names cols : list string) : result (list nat) :=
  match names with
  | [] => Ok []
  | n :: names' =>
      match column_index n cols with
      | None => Raise (KeyError n)
      | Some i =>
          match column_indices names' cols with
          | Ok idx => Ok (i :: idx)
          | Raise e => Raise e
          end
      end
  end.

(** [df[[n1, n2, ...]]]: the listed columns, in the listed order.  A missing
    label raises [KeyError]; the text of the exception names the first
    missing label and is not the one pandas prints. *)
Definition getitem_columns (df : DataFrame) (names : list string) : result DataFrame :=
  match column_indices names (columns df) with
  | Ok idx => Ok {| columns := names; rows := map (project_row idx) (rows df) |}
  | Raise e => Raise e
  end.

(** ** The selections *)

Inductive Disease : Type :=
| Dengue | Chagas | Malaria | YellowFever | Leishmaniasis | Filariasis
| Schistosomiasis.

(** The option string the select box returns for a disease. *)
Definition disease_name (d : Disease) : string :=
  match d with
  | Dengue => "Dengue"
  | Chagas => "Chagas"
  | Malaria => "Malaria"
  | YellowFever => "Yellow Fever"
  | Leishmaniasis => "Leishmaniasis"
  | Filariasis => "Filariasis"
  | Schistosomiasis => "Schistosomiasis"
  end.

Definition disease_options : list string :=
  ["Dengue"; "Chagas"; "Malaria"; "Yellow Fever"; "Leishmaniasis";
   "Filariasis"; "Schistosomiasis"].

Inductive EmbeddingModel : Type :=
| TransE | TransR | TransH | UM | DistMult | RESCAL | ERMLP.

Definition model_name (m : EmbeddingModel) : string :=
  match m with
  | TransE => "TransE"
  | TransR => "TransR"
  | TransH => "TransH"
  | UM => "UM"
  | DistMult => "DistMult"
  | RESCAL => "RESCAL"
  | ERMLP => "ERMLP"
  end.

Definition model_options : list string :=
  ["TransE"; "TransR"; "TransH"; "UM"; "DistMult"; "RESCAL"; "ERMLP"].

Inductive Nav : Type :=
| GetDrugsRecommendations
| ExploreKnowledgeGraph
| ModelPerformanceMetrics
| Help.

Definition nav_options : list string :=
  ["Get Drugs Recommendations"; "Explore Knowledge Graph";
   "Model Performance Metrics"; "Help"].

(** What the widgets return during one execution of the script. *)
Record inputs : Type := {
  nav : Nav;                        (* the sidebar radio *)
  input_text : string;              (* the chat text input *)
  send : bool;                      (* the "Send" button *)
  disease_selection : Disease;      (* the disease select box of the page shown *)
  model_selection : EmbeddingModel; (* the model select box *)
  get_recommendations : bool        (* the "Get Recommendations" button *)
}.

(** ** The outside world *)

(** What [text_model.generate_content] returns: an object whose [text]
    property yields the generated text or raises (a blocked answer). *)
Record GenerateContentResponse : Type := { text : result string }.

(** A matplotlib figure as the script builds it: the plotted table, the
    columns on the two axes, the title and the axis labels. *)
Record Figure : Type := {
  fig_data : DataFrame;
  fig_x : string;
  fig_y : string;
  fig_title : string;
  fig_xlabel : string;
  fig_ylabel : string
}.

Record env : Type := {
  (* os.environ once load_dotenv() has run *)
  environ : gmap string string;
  (* the files under the working directory: path to decoded text *)
  files : gmap string string;
  (* text_model.generate_content(prompt) *)
  generate_content : string -> result GenerateContentResponse;
  (* the pandas CSV parser, applied to a separator and the text of a file *)
  parse_csv : string -> string -> result DataFrame;
  (* DataFrame.to_csv(index=False) *)
  to_csv : DataFrame -> string;
  (* DataFrame.plot(kind='bar', x=.., y=..): the exception it raises, if any *)
  plot_bar : DataFrame -> string -> string -> option exn
}.

(** An open text file: its decoded contents and the read position. *)
Record TextIOWrapper : Type := {
  file_path : string;
  file_text : string;
  file_pos : nat
}.

(** The [data] argument of [st.download_button] as the script passes it. *)
Inductive download_data : Type :=
| DataStr (s : string)
| DataFile (handle : nat).

(** What one execution does to the outside, in order. *)
Inductive event : Type :=
| PageConfig (page_title layout initial_sidebar_state : string)
| Markdown (body : string)
| Header (body : string)
| Text (body : string)
| Error (body : string)
| Radio (label : string) (options : list string)
| TextInput (label : string)
| Button (label : string)
| Selectbox (label : string) (options : list string)
| ShowTable (df : DataFrame)
| Dataframe (df : DataFrame)
| ComponentsHtml (html : string) (height width : Z)
| DownloadButton (label payload file_name mime : string)
| Pyplot (fig : Figure)
| OpenFile (path : string)
| GenerateContent (prompt : string).

(** A chat turn: the speaker and the message. *)
Definition ChatTurn : Type := string * string.

Record world : Type := {
  (* st.session_state, restricted to the keys the script writes *)
  session_state : gmap string (list ChatTurn);
  (* the file objects created by open(), addressed by position *)
  open_files : list TextIOWrapper
}.

Definition set_session (ss : gmap string (list ChatTurn)) (w : world) : world :=
  {| session_state := ss; open_files := open_files w |}.

Definition set_open_files (fs : list TextIOWrapper) (w : world) : world :=
  {| session_state := session_state w; open_files := fs |}.

(** ** The monad *)

Definition M (A : Type) : Type := world -> result A * world * list event.

Definition ret {A : Type} (a : A) : M A := fun w => (Ok a, w, []).

Definition raise {A : Type} (e : exn) : M A := fun w => (Raise e, w, []).

Definition bind {A B : Type} (m : M A) (f : A -> M B) : M B :=
  fun w =>
    match m w with
    | (Ok a, w1, t1) =>
        match f a w1 with
        | (r, w2, t2) => (r, w2, t1 ++ t2)
        end
    | (Raise e, w1, t1) => (Raise e, w1, t1)
    end.

(** [try: m  except Exception as e: h e] *)
Definition try_except {A : Type} (m : M A) (h : exn -> M A) : M A :=
  fun w =>
    match m w with
    | (Ok a, w1, t1) => (Ok a, w1, t1)
    | (Raise e, w1, t1) =>
        match h e w1 with
        | (r, w2, t2) => (r, w2, t1 ++ t2)
        end
    end.

Definition emit (e : event) : M unit := fun w => (Ok tt, w, [e]).

Definition lift {A : Type} (r : result A) : M A := fun w => (r, w, []).

Declare Scope py_scope.
Delimit Scope py_scope with py.
Notation "x <- m ;; k" := (bind m (fun x => k))
  (at level 100, m at next level, right associativity) : py_scope.
Notation "m ;; k" := (bind m (fun _ => k))
  (at level 100, right associativity) : py_scope.
Open Scope py_scope.

(** The three components of what a computation returns. *)
Definition result_of {A : Type} (o : result A * world * list event) : result A :=
  fst (fst o).

Definition world_of {A : Type} (o : result A * world * list event) : world :=
  snd (fst o).

Definition trace_of {A : Type} (o : result A * world * list event) : list event :=
  snd o.

Arguments result_of {A} !o /.
Arguments world_of {A} !o /.
Arguments trace_of {A} !o /.

(** [when b m]: an [if] statement without [else]. *)
Definition when (b : bool) (m : M unit) : M unit :=
  if b then m else ret tt.

(** ** Static markup *)

Definition STYLE_MARKUP : string :=
  "
    <style>
    @import url('https://fonts.googleapis.com/css2?family=SF+Pro+Display:wght@400;600;700&display=swap');

    body {
        font-family: 'SF Pro Display', sans-serif;
        background-color: #f0f5f0;
    }

    .header {
        background-color: #e8f5e9;
        padding: 20px;
        box-shadow: 0 2px 4px rgba(0, 0, 0, 0.1);
        text-align: center;
    }

    .header h1 {
        font-size: 36px;
        color: #2e7d32;
        margin: 0;
    }

    .sidebar .sidebar-content {
        padding: 20px;
    }

    .sidebar .sidebar-content h2 {
        font-size: 24px;
        color: #2e7d32;
    }

    .main-content {
        padding: 20px;
    }

    .main-content h2 {
        font-size: 28px;
        color: #2e7d32;
        text-align: center;
    }

    .chatbot-response {
        color: white !important;
        background-color: #4caf50;
        padding: 10px;
        border-radius: 10px;
        margin-top: 20px;
    }

    .smooth-transition {
        transition: all 0.3s ease;
    }

    .button-primary {
        background-color: #2e7d32;
        color: #fff;
        border: none;
        padding: 10px 20px;
        border-radius: 5px;
        font-size: 16px;
        cursor: pointer;
    }

    .button-primary:hover {
        background-color: #1b5e20;
    }

    .download-button {
        background-color: #2e7d32;
        color: #fff;
        border: none;
        padding: 10px 20px;
        border-radius: 5px;
        font-size: 16px;
        cursor: pointer;
        margin-top: 20px;
    }

    .download-button:hover {
        background-color: #1b5e20;
    }
    </style>
".

Definition HEADER_MARKUP : string :=
  "
    <div class='header'>
        <h1>Drug Repurposing Using Knowledge Graphs</h1>
    </div>
".

Definition HELP_MARKUP : string :=
  "
        <h3 style=" ++ dq ++ "text-align: center; color:#F63366; font-size:24px;" ++ dq ++ ">Help & Documentation</h3>
        <p style=" ++ dq ++ "text-align: center;" ++ dq ++ ">Welcome to the Drug Repurposing Using Knowledge Graphs application. This tool helps you explore drug recommendations, knowledge graphs, and model performance metrics.</p>
        <ul>
            <li><b>Get Drugs Recommendations:</b> Select a disease and an embedding model to get drug recommendations and view the corresponding knowledge graph and performance metrics.</li>
            <li><b>Explore Knowledge Graph:</b> Visualize and analyze the knowledge graph for the selected disease.</li>
            <li><b>Model Performance Metrics:</b> View the performance metrics for various embedding models used in drug repurposing.</li>
            <li><b>Help:</b> Find documentation and guidance on using the application.</li>
        </ul>
    ".

(** ** The script *)

(** Characters of [s] from position [n] on. *)
Fixpoint drop_chars (n : nat) (s : string) : string :=
  match n, s with
  | O, _ => s
  | S n', String _ s' => drop_chars n' s'
  | S _, EmptyString => EmptyString
  end.

(** [disease_selection + model_selection] *)
Definition final_selection (disease_selection model_selection : string) : string :=
  disease_selection ++ model_selection.

(** [performance_file[performance_file['final_selection'] == final_selection]] *)
Definition performance_filter (performance_file : DataFrame) (key : string)
  : result DataFrame :=
  match getitem_column performance_file "final_selection" with
  | Ok col => Ok (getitem_mask performance_file (series_eq col key))
  | Raise e => Raise e
  end.

Definition is_nav (a b : Nav) : bool :=
  match a, b with
  | GetDrugsRecommendations, GetDrugsRecommendations => true
  | ExploreKnowledgeGraph, ExploreKnowledgeGraph => true
  | ModelPerformanceMetrics, ModelPerformanceMetrics => true
  | Help, Help => true
  | _, _ => false
  end.

Section Script.

Variable E : env.

(** *** Library calls *)

Definition os_getenv (name : string) : option string := environ E !! name.

(** [open(path, 'r', encoding='utf-8')]: a new file object positioned at the
    start, or [FileNotFoundError]. *)
Definition open (path : string) : M nat :=
  fun w =>
    match files E !! path with
    | None => (Raise (FileNotFoundError path), w, [OpenFile path])
    | Some txt =>
        (Ok (List.length (open_files w)),
         set_open_files
           (open_files w ++ [{| file_path := path; file_text := txt; file_pos := 0 |}]) w,
         [OpenFile path])
    end.

(** [f.read()]: everything from the current position to the end of the file;
    the position is left at the end. *)
Definition file_read (handle : nat) : M string :=
  fun w =>
    match open_files w !! handle with
    | None => (Raise (ValueError "I/O operation on closed file."), w, [])
    | Some f =>
        (Ok (drop_chars (file_pos f) (file_text f)),
         set_open_files
           (<[handle := {| file_path := file_path f;
                           file_text := file_text f;
                           file_pos := String.length (file_text f) |}]>
              (open_files w)) w,
         [])
    end.

(** [pd.read_csv(path, sep=sep)] *)
Definition pd_read_csv (path sep : string) : M DataFrame :=
  emit (OpenFile path) ;;
  match files E !! path with
  | None => raise (FileNotFoundError path)
  | Some txt => lift (parse_csv E sep txt)
  end.

(** [st.download_button(label, data, file_name, mime)].  Streamlit takes a
    [str] as it is and obtains the contents of a text file object by calling
    its [read()] method. *)
Definition st_download_button (label : string) (data : download_data)
    (file_name mime : string) : M unit :=
  payload <- match data with
             | DataStr s => ret s
             | DataFile handle => file_read handle
             end ;;
  emit (DownloadButton label payload file_name mime).

Definition text_model_generate_content (prompt : string) : M GenerateContentResponse :=
  emit (GenerateContent prompt) ;;
  lift (generate_content E prompt).

(** [df.plot(kind='bar', x=x, y=y, ax=ax, ...)] followed by the title, the
    axis labels and [st.pyplot(fig)]. *)
Definition plot_and_show (df : DataFrame) (x y title xlabel ylabel : string) : M unit :=
  match plot_bar E df x y with
  | Some e => raise e
  | None => ret tt
  end ;;
  emit (Pyplot {| fig_data := df; fig_x := x; fig_y := y; fig_title := title;
                  fig_xlabel := xlabel; fig_ylabel := ylabel |}).

(** *** [st.session_state] *)

(** [key in st.session_state] *)
Definition session_contains (key : string) : M bool :=
  fun w =>
    (Ok match session_state w !! key with Some _ => true | None => false end, w, []).

(** [st.session_state[key] = value] *)
Definition session_setitem (key : string) (value : list ChatTurn) : M unit :=
  fun w => (Ok tt, set_session (<[key := value]> (session_state w)) w, []).

(** [st.session_state[key].append(turn)] *)
Definition session_append (key : string) (turn : ChatTurn) : M unit :=
  fun w =>
    match session_state w !! key with
    | Some log => (Ok tt, set_session (<[key := log ++ [turn]]> (session_state w)) w, [])
    | None => (Raise (KeyError key), w, [])
    end.

(** *** Module level, lines 10-34 *)

Definition startup : M unit :=
  let api_key := os_getenv "GOOGLE_API_KEY" in
  if negb (truthy_opt api_key)
  then raise (ValueError "GOOGLE_API_KEY is not set in the environment variables")
  else ret tt.

Definition get_gemini_response (input_text : string) : M (option string) :=
  try_except
    (if truthy input_text then
       response <- text_model_generate_content input_text ;;
       generated <- lift (text response) ;;
       ret (Some generated)
     else ret None)
    (fun e =>
       emit (Error ("Error communicating with the Google Gemini API: " ++ exn_str e)) ;;
       ret None).

Definition p_title (title : string) : M unit :=
  emit (Markdown ("<h2 class=" ++ dq ++ "smooth-transition" ++ dq ++ ">"
                  ++ title ++ "</h2>")).

Definition page_setup : M unit :=
  emit (PageConfig "Drug Repurposing Using Knowledge Graphs" "wide" "expanded") ;;
  emit (Markdown STYLE_MARKUP) ;;
  emit (Markdown HEADER_MARKUP).

(** *** The sidebar, lines 135-157 *)

Definition chat_send (input_text : string) : M unit :=
  if truthy input_text then
    response <- get_gemini_response input_text ;;
    if truthy_opt response then
      let response := match response with Some r => r | None => "" end in
      emit (Markdown ("<div class=" ++ dq ++ "chatbot-response" ++ dq ++ ">"
                      ++ response ++ "</div>")) ;;
      present <- session_contains "chat_history" ;;
      when (negb present) (session_setitem "chat_history" []) ;;
      session_append "chat_history" ("You", input_text) ;;
      session_append "chat_history" ("Bot", response)
    else
      emit (Error "Failed to get a response from the chatbot")
  else
    emit (Error "Please enter a question.").

Definition sidebar (i : inputs) : M unit :=
  emit (Header "I want to:") ;;
  emit (Radio "" nav_options) ;;
  emit (Text "") ;;
  emit (Text "") ;;
  emit (Header "Chat with Us!") ;;
  emit (TextInput "Enter your question here:") ;;
  emit (Button "Send") ;;
  when (send i) (chat_send (input_text i)).

(** *** The knowledge graph of a disease, lines 193-207 and again 232-246 *)

Definition knowledge_graph (disease_selection : string) : M unit :=
  emit (Markdown "<div style='text-align: center;'>") ;;
  HtmlFile <- open ("graphs/knowledge_graph_" ++ disease_selection ++ ".html") ;;
  source_code <- file_read HtmlFile ;;
  emit (ComponentsHtml source_code 625 750) ;;
  emit (Markdown "</div>") ;;
  st_download_button "Download Knowledge Graph" (DataFile HtmlFile)
                     (disease_selection ++ "_knowledge_graph.html") "text/html".

(** *** Get Drugs Recommendations, lines 160-222 *)

(** Lines 171-187: the ranking table and its download. *)
Definition drug_recommendations (final_selection : string) : M unit :=
  ranking_file <- pd_read_csv ("embedding_models/" ++ final_selection ++ ".csv") "," ;;
  emit (Markdown "<h3 style='text-align: center; color:#F63366; font-size:28px;'><b>Drug Recommendations<b></h3>") ;;
  emit (ShowTable ranking_file) ;;
  emit (Markdown "<h3 style='text-align: center; color:#FFFFFF; font-size:18px;'><b>Model dependence affects how the values in the 'score' column should be read; typically, they cannot be taken directly as a probability.<b></h3>") ;;
  emit (Markdown "<h3 style='text-align: center; color:#FFFFFF; font-size:18px;'><b>If the compound is listed as 'yes' at ClinicalTrials.gov for the target disorders, then it is listed as 'no' in the 'in_clinical_trials' column.<b></h3>") ;;
  let csv := to_csv E ranking_file in
  st_download_button "Download Recommendations" (DataStr csv)
                     (final_selection ++ "_recommendations.csv") "text/csv".

(** Lines 209-213: the rows of the performance table for the selection. *)
Definition model_performance (final_selection : string) : M DataFrame :=
  performance_file <- pd_read_csv "embedding_models/performance_metrics.csv" ";" ;;
  filtered_data <- lift (performance_filter performance_file final_selection) ;;
  emit (Markdown "<h3 style='text-align: center; color:#F63366; font-size:28px;'><b>Embedding Model Performance<b></h3>") ;;
  shown <- lift (getitem_columns filtered_data ["Measure"; "Value"]) ;;
  emit (Dataframe shown) ;;
  ret filtered_data.

Definition recommendations (disease_selection model_selection : string) : M unit :=
  let final_selection := final_selection disease_selection model_selection in
  drug_recommendations final_selection ;;
  emit (Markdown "<h3 style='text-align: center; color:#F63366; font-size:28px;'><b>Direct Connections in DRKG for the Target Disease<b></h3>") ;;
  emit (Markdown "<h3 style='text-align: center; color:#FFFFFF; font-size:18px;'><b>All of the GNBR subgraphs entities that are directly related to the target disease are listed below. Red-highlighted compounds are indicated.<b></h3>") ;;
  knowledge_graph disease_selection ;;
  filtered_data <- model_performance final_selection ;;
  plot_and_show filtered_data "Measure" "Value"
                "Performance Metrics" "Measure" "Value".

Definition page_recommendations (i : inputs) : M unit :=
  emit (Text "") ;;
  p_title "Get Drug Recommendations" ;;
  emit (Text "") ;;
  emit (Selectbox "Select a disease" disease_options) ;;
  emit (Selectbox "Select an embedding model" model_options) ;;
  emit (Button "Get Recommendations") ;;
  when (get_recommendations i)
       (recommendations (disease_name (disease_selection i))
                        (model_name (model_selection i))).

(** *** Explore Knowledge Graph, lines 224-246 *)

Definition page_explore (i : inputs) : M unit :=
  emit (Text "") ;;
  p_title "Explore Knowledge Graph" ;;
  emit (Text "") ;;
  emit (Selectbox "Select a disease for Knowledge Graph Exploration" disease_options) ;;
  knowledge_graph (disease_name (disease_selection i)).

(** *** Model Performance Metrics, lines 247-262 *)

Definition page_metrics : M unit :=
  emit (Text "") ;;
  emit (Text "") ;;
  performance_file <- pd_read_csv "embedding_models/performance_metrics.csv" ";" ;;
  emit (Markdown "<h3 style='text-align: center; color:#F63366; font-size:28px;'><b>Model Performance Metrics<b></h3>") ;;
  emit (Dataframe performance_file) ;;
  plot_and_show performance_file "final_selection" "Value"
                "Performance Metrics of Embedding Models" "Embedding Model" "Value".

(** *** Help, lines 264-278 *)

Definition page_help : M unit :=
  emit (Text "") ;;
  emit (Text "") ;;
  emit (Markdown HELP_MARKUP).

(** *** One execution of the whole script *)

Definition script (i : inputs) : M unit :=
  startup ;;
  page_setup ;;
  sidebar i ;;
  when (is_nav (nav i) GetDrugsRecommendations) (page_recommendations i) ;;
  when (is_nav (nav i) ExploreKnowledgeGraph) (page_explore i) ;;
  when (is_nav (nav i) ModelPerformanceMetrics) page_metrics ;;
  when (is_nav (nav i) Help) page_help.

End Script.

(** ** Sessions *)

(** A fresh execution: the session state carried over, no file open yet. *)
Definition start (ss : gmap string (list ChatTurn)) : world :=
  {| session_state := ss; open_files := [] |}.

(** One user interaction: the script runs against the current outside world
    with the widgets' values; the session state it leaves is kept, also when
    the execution ended with an exception. *)
Definition interact (ss : gmap string (list ChatTurn)) (r : env * inputs)
  : gmap string (list ChatTurn) :=
  session_state (world_of (script (fst r) (snd r) (start ss))).

(** A session: interactions one after the other, from an empty state. *)
Definition session (rs : list (env * inputs)) : gmap string (list ChatTurn) :=
  fold_left interact rs ∅.

(** The chat log of a session state; empty while the key is not there. *)
Definition chat_log (ss : gmap string (list ChatTurn)) : list ChatTurn :=
  match ss !! "chat_history" with
  | Some log => log
  | None => []
  end.

(** ** Vocabulary of the statements *)

(** Row [r] carries the text [key] in the column at position [i]. *)
Definition row_matches (i : nat) (key : string) (r : list cell) : bool :=
  cell_eq_str (nth i r NaN) key.

(** The credential is present and not empty. *)
Definition has_api_key (E : env) : Prop :=
  truthy_opt (environ E !! "GOOGLE_API_KEY") = true.

(** What the gateway gives back for a prompt when the call goes through and
    the generated text is not empty. *)
Definition reply (E : env) (prompt : string) : option string :=
  match generate_content E prompt with
  | Ok response =>
      match text response with
      | Ok generated => if truthy generated then Some generated else None
      | Raise _ => None
      end
  | Raise _ => None
  end.

(** The exception of a gateway call that fails: raised by the call itself or
    by reading the text of what it returned. *)
Definition gateway_raises (E : env) (prompt : string) (e : exn) : Prop :=
  generate_content E prompt = Raise e \/
  exists response, generate_content E prompt = Ok response /\ text response = Raise e.

(** A successful chat interaction: the script starts, "Send" is pressed with
    a question, and the gateway answers it with a text that is not empty. *)
Definition successful_chat (r : env * inputs) : bool :=
  truthy_opt (environ (fst r) !! "GOOGLE_API_KEY")
  && send (snd r)
  && truthy (input_text (snd r))
  && match reply (fst r) (input_text (snd r)) with Some _ => true | None => false end.

(** The two turns such an interaction is expected to log. *)
Definition exchange (r : env * inputs) : list ChatTurn :=
  [("You", input_text (snd r));
   ("Bot", default "" (reply (fst r) (input_text (snd r))))].

Definition is_generate_content (e : event) : bool :=
  match e with GenerateContent _ => true | _ => false end.

Definition is_components_html (e : event) : bool :=
  match e with ComponentsHtml _ _ _ => true | _ => false end.

Definition is_open_file (e : event) : bool :=
  match e with OpenFile _ => true | _ => false end.

(** The events of the sidebar: none of them touches a file or embeds a
    document. *)
Definition sidebar_event (e : event) : bool :=
  match e with
  | Header _ | Radio _ _ | Text _ | TextInput _ | Button _
  | Markdown _ | Error _ | GenerateContent _ => true
  | _ => false
  end.

(** The page selected by the navigation radio. *)
Definition active_page (E : env) (i : inputs) : M unit :=
  match nav i with
  | GetDrugsRecommendations => page_recommendations E i
  | ExploreKnowledgeGraph => page_explore E i
  | ModelPerformanceMetrics => page_metrics E
  | Help => page_help
  end.

(** Properties of a computation that hold from every starting world. *)
Definition keeps_session {A : Type} (m : M A) : Prop :=
  forall w, session_state (world_of (m w)) = session_state w.

Definition emits_only (P : event -> Prop) {A : Type} (m : M A) : Prop :=
  forall w, Forall P (trace_of (m w)).

(** What the script draws before the sidebar. *)
Definition setup_events : list event :=
  [PageConfig "Drug Repurposing Using Knowledge Graphs" "wide" "expanded";
   Markdown STYLE_MARKUP; Markdown HEADER_MARKUP].

(** The file object of a document that has been read to its end. *)
Definition exhausted (path txt : string) : TextIOWrapper :=
  {| file_path := path; file_text := txt; file_pos := String.length txt |}.

(** The widgets the sidebar draws before it looks at the "Send" button. *)
Definition sidebar_widgets : list event :=
  [Header "I want to:"; Radio "" nav_options; Text ""; Text "";
   Header "Chat with Us!"; TextInput "Enter your question here:"; Button "Send"].

(** The widgets of the recommendations page. *)
Definition recommendation_widgets : list event :=
  [Text "";
   Markdown ("<h2 class=" ++ dq ++ "smooth-transition" ++ dq ++ ">"
             ++ "Get Drug Recommendations" ++ "</h2>");
   Text "";
   Selectbox "Select a disease" disease_options;
   Selectbox "Select an embedding model" model_options;
   Button "Get Recommendations"].

(** The widgets of the exploration page. *)
Definition explore_widgets : list event :=
  [Text "";
   Markdown ("<h2 class=" ++ dq ++ "smooth-transition" ++ dq ++ ">"
             ++ "Explore Knowledge Graph" ++ "</h2>");
   Text "";
   Selectbox "Select a disease for Knowledge Graph Exploration" disease_options].

(** ** A small deployment, for examples *)

Definition demo_performance : DataFrame :=
  {| columns := ["final_selection"; "Measure"; "Value"];
     rows := [[Str "DengueTransE"; Str "MRR"; Num (Qmake 1 2)];
              [Str "DengueTransR"; Str "MRR"; Num (Qmake 1 4)];
              [Str "DengueTransE"; Str "Hits@10"; Num (Qmake 3 4)];
              [Str "MalariaUM"; Str "MRR"; Num (Qmake 1 8)]] |}.

Definition demo_ranking : DataFrame :=
  {| columns := ["drug"; "score"; "in_clinical_trials"];
     rows := [[Str "DB00001"; Num (Qmake 9 10); Str "no"];
              [Str "DB00002"; Num (Qmake 7 10); Str "yes"]] |}.

(** An outside world with the artifacts of Dengue under TransE, a parser
    that returns the two tables above, and a gateway that fails on the
    prompt "boom", answers "silence" with an empty text and echoes any other
    prompt. *)
Definition demo_env : env :=
  {| environ := {[ "GOOGLE_API_KEY" := "secret" ]};
     files :=
       <[ "embedding_models/DengueTransE.csv" := "drug,score,in_clinical_trials" ]>
       (<[ "embedding_models/performance_metrics.csv" := "final_selection;Measure;Value" ]>
        {[ "graphs/knowledge_graph_Dengue.html" := "<html>graph</html>" ]});
     generate_content := fun prompt =>
       if String.eqb prompt "boom" then Raise (Exception "RuntimeError" "quota exceeded")
       else if String.eqb prompt "silence" then Ok {| text := Ok "" |}
       else Ok {| text := Ok ("re: " ++ prompt)%string |};
     parse_csv := fun sep _ =>
       if String.eqb sep ";" then Ok demo_performance else Ok demo_ranking;
     to_csv := fun _ => "drug,score,in_clinical_trials";
     plot_bar := fun _ _ _ => None |}.

Definition demo_inputs (page : Nav) (question : string) (d : Disease)
    (m : EmbeddingModel) : inputs :=
  {| nav := page; input_text := question; send := true;
     disease_selection := d; model_selection := m;
     get_recommendations := true |}.

Definition is_download_button (e : event) : bool :=
  match e with DownloadButton _ _ _ _ => true | _ => false end.

(** The example deployment with one file removed. *)
Definition demo_env_without (path : string) : env :=
  {| environ := environ demo_env;
     files := delete path (files demo_env);
     generate_content := generate_content demo_env;
     parse_csv := parse_csv demo_env;
     to_csv := to_csv demo_env;
     plot_bar := plot_bar demo_env |}.

(** ** Further vocabulary *)

(** "Send" is pressed with a question typed, in an execution that gets past
    the credential check. *)
Definition chat_requested (E : env) (i : inputs) : bool :=
  truthy_opt (environ E !! "GOOGLE_API_KEY") && send i && truthy (input_text i).

(** An event that, if it is a call of [open] or [pd.read_csv], is on one of
    the listed paths. *)
Definition opens_only (allowed : list string) (e : event) : Prop :=
  match e with
  | OpenFile path => In path allowed
  | _ => True
  end.

(** The outside world [E] with another environment, parser or plotter. *)
Definition with_environ (vars : gmap string string) (E : env) : env :=
  {| environ := vars; files := files E; generate_content := generate_content E;
     parse_csv := parse_csv E; to_csv := to_csv E; plot_bar := plot_bar E |}.

Definition with_files (fs : gmap string string) (E : env) : env :=
  {| environ := environ E; files := fs; generate_content := generate_content E;
     parse_csv := parse_csv E; to_csv := to_csv E; plot_bar := plot_bar E |}.

Definition with_parse_csv (parse : string -> string -> result DataFrame) (E : env) : env :=
  {| environ := environ E; files := files E; generate_content := generate_content E;
     parse_csv := parse; to_csv := to_csv E; plot_bar := plot_bar E |}.

Definition with_plot_bar (plot : DataFrame -> string -> string -> option exn) (E : env)
  : env :=
  {| environ := environ E; files := files E; generate_content := generate_content E;
     parse_csv := parse_csv E; to_csv := to_csv E; plot_bar := plot |}.

(** Two performance tables that lack a column the page asks for. *)
Definition demo_performance_unkeyed : DataFrame :=
  {| columns := ["model"; "Measure"; "Value"];
     rows := [[Str "DengueTransE"; Str "MRR"; Num (Qmake 1 2)]] |}.

Definition demo_performance_unmeasured : DataFrame :=
  {| columns := ["final_selection"; "Metric"; "Value"];
     rows := [[Str "DengueTransE"; Str "MRR"; Num (Qmake 1 2)]] |}.

(** The widgets' values with the "Get Recommendations" button not pressed. *)
Definition demo_browsing (d : Disease) (m : EmbeddingModel) : inputs :=
  {| nav := GetDrugsRecommendations; input_text := ""; send := false;
     disease_selection := d; model_selection := m;
     get_recommendations := false |}.

(** The heading of the metrics page. *)
Definition metrics_heading : event :=
  Markdown "<h3 style='text-align: center; color:#F63366; font-size:28px;'><b>Model Performance Metrics<b></h3>".

(** A parser that rejects every file, and a plotter that rejects every table. *)
Definition rejecting_parser (sep txt : string) : result DataFrame :=
  Raise (Exception "ParserError" "Error tokenizing data").

Definition rejecting_plotter (df : DataFrame) (x y : string) : option exn :=
  Some (Exception "TypeError" "no numeric data to plot").

(** The three artifacts an execution with the given selections may read. *)
Definition artifact_paths (i : inputs) : list string :=
  ["embedding_models/"
     ++ final_selection (disease_name (disease_selection i))
                        (model_name (model_selection i)) ++ ".csv";
   "graphs/knowledge_graph_" ++ disease_name (disease_selection i) ++ ".html";
   "embedding_models/performance_metrics.csv"]%string.

Definition is_pyplot (e : event) : bool :=
  match e with Pyplot _ => true | _ => false end.

(** A plotter that, like the bar plot of pandas, rejects a table without
    rows and accepts any other. *)
Definition empty_frame_plotter (df : DataFrame) (x y : string) : option exn :=
  match rows df with
  | [] => Some (Exception "IndexError"
                          "index 0 is out of bounds for axis 0 with size 0")
  | _ :: _ => None
  end.

(** The example deployment with that plotter and with the ranking table and
    the graph of Chagas under ERMLP, a selection for which the performance
    table has no row. *)
Definition demo_env_chagas : env :=
  with_plot_bar empty_frame_plotter
    (with_files
       (<[ "embedding_models/ChagasERMLP.csv" := "drug,score,in_clinical_trials" ]>
          (<[ "graphs/knowledge_graph_Chagas.html" := "<html>chagas</html>" ]>
             (files demo_env)))
       demo_env).

(** * Properties *)

(** ** Tables *)

Lemma select_rows_mask (f : list cell -> bool) (rs : list (list cell)) :
  select_rows rs (map f rs) = List.filter f rs.
Proof.
  induction rs as [|r rs IH]; simpl; [reflexivity|].
  destruct (f r); rewrite IH; reflexivity.
Qed.

Lemma series_eq_column (i : nat) (key : string) (rs : list (list cell)) :
  series_eq (map (fun r => nth i r NaN) rs) key = map (row_matches i key) rs.
Proof. unfold series_eq. rewrite map_map. reflexivity. Qed.

Lemma performance_filter_rows (df : DataFrame) (key : string) (i : nat) :
  column_index "final_selection" (columns df) = Some i ->
  performance_filter df key =
  Ok {| columns := columns df;
        rows := List.filter (row_matches i key) (rows df) |}.
Proof.
  intros Hi. unfold performance_filter, getitem_column. rewrite Hi.
  unfold getitem_mask. rewrite series_eq_column, select_rows_mask.
  reflexivity.
Qed.


Lemma filter_none {A : Type} (f : A -> bool) (l : list A) :
  Forall (fun x => f x = false) l -> List.filter f l = [].
Proof.
  induction 1 as [|x l Hx _ IH]; simpl; [reflexivity|].
  rewrite Hx. exact IH.
Qed.


Lemma getitem_columns_empty (cols names : list string) (idx : list nat) :
  column_indices names cols = Ok idx ->
  getitem_columns {| columns := cols; rows := [] |} names =
  Ok {| columns := names; rows := [] |}.
Proof. intros H. unfold getitem_columns. simpl. rewrite H. reflexivity. Qed.

(** ** The monad *)

Lemma bind_ok {A B : Type} (m : M A) (f : A -> M B) (w w1 : world) (a : A)
    (t1 : list event) :
  m w = (Ok a, w1, t1) ->
  bind m f w = (result_of (f a w1), world_of (f a w1), t1 ++ trace_of (f a w1)).
Proof.
  intros H. unfold bind. rewrite H.
  destruct (f a w1) as [[r w2] t2]. reflexivity.
Qed.

Lemma bind_raise {A B : Type} (m : M A) (f : A -> M B) (w w1 : world) (e : exn)
    (t1 : list event) :
  m w = (Raise e, w1, t1) ->
  bind m f w = (Raise e, w1, t1).
Proof. intros H. unfold bind. rewrite H. reflexivity. Qed.

Lemma bind_emit {B : Type} (e : event) (f : unit -> M B) (w : world) :
  bind (emit e) f w = (result_of (f tt w), world_of (f tt w), e :: trace_of (f tt w)).
Proof. apply (bind_ok (emit e) f w w tt [e]). reflexivity. Qed.

Lemma bind_ret_l {A B : Type} (a : A) (f : A -> M B) (w : world) :
  bind (ret a) f w = f a w.
Proof. unfold bind, ret. destruct (f a w) as [[r w2] t2]. reflexivity. Qed.

(** A continuation that does nothing can be dropped. *)
Lemma bind_skip (m : M unit) (k : unit -> M unit) (w : world) :
  (forall w', k tt w' = (Ok tt, w', [])) ->
  bind m k w = m w.
Proof.
  intros Hk. unfold bind. destruct (m w) as [[[[]|e] w1] t1]; [|reflexivity].
  rewrite Hk, app_nil_r. reflexivity.
Qed.

Section Closure.

Context {A B : Type}.

Lemma keeps_session_bind (m : M A) (f : A -> M B) :
  keeps_session m -> (forall a, keeps_session (f a)) -> keeps_session (bind m f).
Proof.
  intros Hm Hf w. specialize (Hm w). unfold bind.
  destruct (m w) as [[[a|e] w1] t1]; simpl in *.
  - specialize (Hf a w1). destruct (f a w1) as [[r w2] t2]. simpl in *. congruence.
  - exact Hm.
Qed.

Lemma emits_only_bind (P : event -> Prop) (m : M A) (f : A -> M B) :
  emits_only P m -> (forall a, emits_only P (f a)) -> emits_only P (bind m f).
Proof.
  intros Hm Hf w. specialize (Hm w). unfold bind.
  destruct (m w) as [[[a|e] w1] t1]; simpl in *.
  - specialize (Hf a w1). destruct (f a w1) as [[r w2] t2]. simpl in *.
    apply Forall_app. split; assumption.
  - exact Hm.
Qed.

Lemma keeps_session_try (m : M A) (h : exn -> M A) :
  keeps_session m -> (forall e, keeps_session (h e)) -> keeps_session (try_except m h).
Proof.
  intros Hm Hh w. specialize (Hm w). unfold try_except.
  destruct (m w) as [[[a|e] w1] t1]; simpl in *.
  - exact Hm.
  - specialize (Hh e w1). destruct (h e w1) as [[r w2] t2]. simpl in *. congruence.
Qed.

Lemma emits_only_try (P : event -> Prop) (m : M A) (h : exn -> M A) :
  emits_only P m -> (forall e, emits_only P (h e)) -> emits_only P (try_except m h).
Proof.
  intros Hm Hh w. specialize (Hm w). unfold try_except.
  destruct (m w) as [[[a|e] w1] t1]; simpl in *.
  - exact Hm.
  - specialize (Hh e w1). destruct (h e w1) as [[r w2] t2]. simpl in *.
    apply Forall_app. split; assumption.
Qed.

Lemma keeps_session_ret (a : A) : keeps_session (ret a).
Proof. intros w. reflexivity. Qed.

Lemma keeps_session_raise (e : exn) : keeps_session (@raise A e).
Proof. intros w. reflexivity. Qed.

Lemma keeps_session_lift (r : result A) : keeps_session (lift r).
Proof. intros w. reflexivity. Qed.

Lemma emits_only_ret (P : event -> Prop) (a : A) : emits_only P (ret a).
Proof. intros w. constructor. Qed.

Lemma emits_only_raise (P : event -> Prop) (e : exn) : emits_only P (@raise A e).
Proof. intros w. constructor. Qed.

Lemma emits_only_lift (P : event -> Prop) (r : result A) : emits_only P (lift r).
Proof. intros w. constructor. Qed.

End Closure.

Lemma keeps_session_emit (e : event) : keeps_session (emit e).
Proof. intros w. reflexivity. Qed.

Lemma emits_only_emit (P : event -> Prop) (e : event) : P e -> emits_only P (emit e).
Proof. intros H w. simpl. constructor; [exact H | constructor]. Qed.

Lemma keeps_session_when (b : bool) (m : M unit) :
  keeps_session m -> keeps_session (when b m).
Proof. destruct b; [trivial | intros _; apply keeps_session_ret]. Qed.

Lemma emits_only_when (P : event -> Prop) (b : bool) (m : M unit) :
  emits_only P m -> emits_only P (when b m).
Proof. destruct b; [trivial | intros _; apply emits_only_ret]. Qed.

Lemma keeps_session_if {A : Type} (b : bool) (m1 m2 : M A) :
  keeps_session m1 -> keeps_session m2 -> keeps_session (if b then m1 else m2).
Proof. destruct b; trivial. Qed.

Lemma emits_only_if (P : event -> Prop) {A : Type} (b : bool) (m1 m2 : M A) :
  emits_only P m1 -> emits_only P m2 -> emits_only P (if b then m1 else m2).
Proof. destruct b; trivial. Qed.

Create HintDb session.
Create HintDb trace.

#[local] Hint Resolve keeps_session_bind keeps_session_try keeps_session_ret
  keeps_session_raise keeps_session_lift keeps_session_emit keeps_session_when
  keeps_session_if
  : session.
#[local] Hint Resolve emits_only_bind emits_only_try emits_only_ret
  emits_only_raise emits_only_lift emits_only_emit emits_only_when
  emits_only_if
  : trace.

#[local] Hint Extern 1 (_ = _) => reflexivity : trace.

(** ** The library calls and the pages: what they leave alone *)

Section Frames.

Variable E : env.

Lemma keeps_session_open (path : string) : keeps_session (open E path).
Proof. intros w. unfold open. destruct (files E !! path); reflexivity. Qed.

Lemma emits_only_open (P : event -> Prop) (path : string) :
  P (OpenFile path) -> emits_only P (open E path).
Proof.
  intros H w. unfold open.
  destruct (files E !! path); simpl; constructor; auto.
Qed.

Lemma keeps_session_file_read (handle : nat) : keeps_session (file_read handle).
Proof. intros w. unfold file_read. destruct (open_files w !! handle); reflexivity. Qed.

Lemma emits_only_file_read (P : event -> Prop) (handle : nat) :
  emits_only P (file_read handle).
Proof.
  intros w. unfold file_read.
  destruct (open_files w !! handle); simpl; constructor.
Qed.

Lemma keeps_session_pd_read_csv (path sep : string) :
  keeps_session (pd_read_csv E path sep).
Proof.
  unfold pd_read_csv. destruct (files E !! path); auto with session.
Qed.

Lemma emits_only_pd_read_csv (P : event -> Prop) (path sep : string) :
  P (OpenFile path) -> emits_only P (pd_read_csv E path sep).
Proof.
  intros H. unfold pd_read_csv.
  destruct (files E !! path); auto with trace.
Qed.

Lemma keeps_session_download (label : string) (data : download_data)
    (file_name mime : string) :
  keeps_session (st_download_button label data file_name mime).
Proof.
  unfold st_download_button.
  destruct data; auto using keeps_session_file_read with session.
Qed.

Lemma emits_only_download (P : event -> Prop) (label : string)
    (data : download_data) (file_name mime : string) :
  (forall payload, P (DownloadButton label payload file_name mime)) ->
  emits_only P (st_download_button label data file_name mime).
Proof.
  intros H. unfold st_download_button.
  destruct data; auto using emits_only_file_read with trace.
Qed.

Lemma keeps_session_generate (prompt : string) :
  keeps_session (text_model_generate_content E prompt).
Proof. unfold text_model_generate_content. auto with session. Qed.

Lemma emits_only_generate (P : event -> Prop) (prompt : string) :
  P (GenerateContent prompt) -> emits_only P (text_model_generate_content E prompt).
Proof. intros H. unfold text_model_generate_content. auto with trace. Qed.

Lemma keeps_session_plot (df : DataFrame) (x y title xlabel ylabel : string) :
  keeps_session (plot_and_show E df x y title xlabel ylabel).
Proof. unfold plot_and_show. destruct (plot_bar E df x y); auto with session. Qed.

Lemma emits_only_plot (P : event -> Prop) (df : DataFrame)
    (x y title xlabel ylabel : string) :
  (forall fig, P (Pyplot fig)) ->
  emits_only P (plot_and_show E df x y title xlabel ylabel).
Proof.
  intros H. unfold plot_and_show. destruct (plot_bar E df x y); auto with trace.
Qed.

Lemma emits_only_session_contains (P : event -> Prop) (key : string) :
  emits_only P (session_contains key).
Proof. intros w. constructor. Qed.

Lemma emits_only_session_setitem (P : event -> Prop) (key : string)
    (value : list ChatTurn) :
  emits_only P (session_setitem key value).
Proof. intros w. constructor. Qed.

Lemma emits_only_session_append (P : event -> Prop) (key : string) (turn : ChatTurn) :
  emits_only P (session_append key turn).
Proof.
  intros w. unfold session_append.
  destruct (session_state w !! key); constructor.
Qed.

Lemma keeps_session_startup : keeps_session (startup E).
Proof.
  unfold startup.
  destruct (negb (truthy_opt (os_getenv E "GOOGLE_API_KEY"))); auto with session.
Qed.

Lemma emits_only_startup (P : event -> Prop) : emits_only P (startup E).
Proof.
  unfold startup.
  destruct (negb (truthy_opt (os_getenv E "GOOGLE_API_KEY"))); auto with trace.
Qed.

#[local] Hint Resolve keeps_session_open keeps_session_file_read
  keeps_session_pd_read_csv keeps_session_download keeps_session_generate
  keeps_session_plot keeps_session_startup : session.
#[local] Hint Resolve emits_only_open emits_only_file_read emits_only_pd_read_csv
  emits_only_download emits_only_generate emits_only_plot
  emits_only_session_contains emits_only_session_setitem
  emits_only_session_append emits_only_startup : trace.

(** No page reads or writes [st.session_state]. *)
Lemma keeps_session_page (i : inputs) : keeps_session (active_page E i).
Proof.
  unfold active_page, page_recommendations, page_explore, page_metrics,
    page_help, recommendations, drug_recommendations, knowledge_graph,
    model_performance, p_title.
  destruct (nav i); cbv zeta; auto 40 with session.
Qed.

Lemma keeps_session_page_setup : keeps_session page_setup.
Proof. unfold page_setup. auto with session. Qed.

(** No page calls the gateway. *)
Lemma page_no_gateway (i : inputs) :
  emits_only (fun e => is_generate_content e = false) (active_page E i).
Proof.
  unfold active_page, page_recommendations, page_explore, page_metrics,
    page_help, recommendations, drug_recommendations, knowledge_graph,
    model_performance, p_title.
  destruct (nav i); cbv zeta; auto 40 with trace.
Qed.

Lemma page_setup_no_gateway :
  emits_only (fun e => is_generate_content e = false) page_setup.
Proof. unfold page_setup. auto with trace. Qed.

(** The sidebar draws only its own elements: it opens no file and embeds no
    document. *)
Lemma sidebar_events (i : inputs) :
  emits_only (fun e => sidebar_event e = true) (sidebar E i).
Proof.
  unfold sidebar, chat_send, get_gemini_response.
  cbv zeta. auto 40 with trace.
Qed.

End Frames.

(** ** The chat *)

Section Chat.

Variable E : env.

Lemma gemini_answers (prompt generated : string) (response : GenerateContentResponse)
    (w : world) :
  truthy prompt = true ->
  generate_content E prompt = Ok response ->
  text response = Ok generated ->
  get_gemini_response E prompt w = (Ok (Some generated), w, [GenerateContent prompt]).
Proof.
  intros Hp Hg Ht.
  unfold get_gemini_response, try_except, text_model_generate_content, bind,
    emit, lift, ret.
  rewrite Hp, Hg, Ht. reflexivity.
Qed.

Lemma gemini_raises (prompt : string) (e : exn) (w : world) :
  truthy prompt = true ->
  gateway_raises E prompt e ->
  get_gemini_response E prompt w =
  (Ok None, w,
   [GenerateContent prompt;
    Error ("Error communicating with the Google Gemini API: " ++ exn_str e)]).
Proof.
  intros Hp [Hg | [response [Hg Ht]]];
    unfold get_gemini_response, try_except, text_model_generate_content, bind,
      emit, lift, ret;
    rewrite Hp, Hg; [|rewrite Ht]; reflexivity.
Qed.

Lemma gemini_no_prompt (prompt : string) (w : world) :
  truthy prompt = false ->
  get_gemini_response E prompt w = (Ok None, w, []).
Proof.
  intros Hp. unfold get_gemini_response, try_except, ret. rewrite Hp. reflexivity.
Qed.

(** The three ways a call can end, read off the outside world. *)
Lemma reply_cases (prompt : string) :
  (exists response generated,
      generate_content E prompt = Ok response /\ text response = Ok generated /\
      truthy generated = true /\ reply E prompt = Some generated) \/
  (exists response,
      generate_content E prompt = Ok response /\ text response = Ok "" /\
      reply E prompt = None) \/
  (exists e, gateway_raises E prompt e /\ reply E prompt = None).
Proof.
  unfold reply, gateway_raises.
  destruct (generate_content E prompt) as [response|e] eqn:Hg.
  - destruct (text response) as [generated|e] eqn:Ht.
    + destruct generated as [|c s].
      * right; left. exists response. auto.
      * left. exists response, (String c s). auto.
    + right; right. exists e. split; [right; exists response|]; auto.
  - right; right. exists e. auto.
Qed.

(** The session state after two appends to the log. *)
Lemma log_two_turns (a b : ChatTurn) (w : world) :
  bind (session_contains "chat_history")
       (fun present =>
          bind (when (negb present) (session_setitem "chat_history" []))
               (fun _ => bind (session_append "chat_history" a)
                              (fun _ => session_append "chat_history" b))) w =
  (Ok tt,
   set_session (<["chat_history" := chat_log (session_state w) ++ [a; b]]>
                  (session_state w)) w,
   []).
Proof.
  unfold bind, session_contains, session_setitem, session_append, chat_log.
  destruct (session_state w !! "chat_history") as [log|] eqn:Hlog; simpl.
  - rewrite Hlog. simpl. rewrite lookup_insert_eq. simpl.
    rewrite insert_insert_eq, <- app_assoc. reflexivity.
  - rewrite lookup_insert_eq. simpl. rewrite lookup_insert_eq. simpl.
    rewrite !insert_insert_eq. reflexivity.
Qed.

Lemma chat_send_success (prompt generated : string) (w : world) :
  truthy prompt = true ->
  reply E prompt = Some generated ->
  chat_send E prompt w =
  (Ok tt,
   set_session (<["chat_history" :=
                    chat_log (session_state w) ++ [("You", prompt); ("Bot", generated)]]>
                  (session_state w)) w,
   [GenerateContent prompt;
    Markdown ("<div class=" ++ dq ++ "chatbot-response" ++ dq ++ ">"
              ++ generated ++ "</div>")]).
Proof.
  intros Hp Hr.
  destruct (reply_cases prompt) as [(response & g & Hg & Ht & Hne & Hr') | [H | H]].
  - assert (g = generated) by congruence. subst g.
    unfold chat_send. rewrite Hp.
    rewrite (bind_ok _ _ _ _ _ _ (gemini_answers _ _ _ w Hp Hg Ht)).
    change (truthy_opt (Some generated)) with (truthy generated).
    rewrite Hne. cbv zeta.
    rewrite bind_emit, log_two_turns. reflexivity.
  - destruct H as (? & _ & _ & H). congruence.
  - destruct H as (? & _ & H). congruence.
Qed.

Lemma chat_send_raises (prompt : string) (e : exn) (w : world) :
  truthy prompt = true ->
  gateway_raises E prompt e ->
  chat_send E prompt w =
  (Ok tt, w,
   [GenerateContent prompt;
    Error ("Error communicating with the Google Gemini API: " ++ exn_str e);
    Error "Failed to get a response from the chatbot"]).
Proof.
  intros Hp Hg. unfold chat_send. rewrite Hp.
  rewrite (bind_ok _ _ _ _ _ _ (gemini_raises _ _ w Hp Hg)).
  reflexivity.
Qed.

Lemma chat_send_empty_answer (prompt : string) (response : GenerateContentResponse)
    (w : world) :
  truthy prompt = true ->
  generate_content E prompt = Ok response ->
  text response = Ok "" ->
  chat_send E prompt w =
  (Ok tt, w,
   [GenerateContent prompt; Error "Failed to get a response from the chatbot"]).
Proof.
  intros Hp Hg Ht. unfold chat_send. rewrite Hp.
  rewrite (bind_ok _ _ _ _ _ _ (gemini_answers _ _ _ w Hp Hg Ht)).
  reflexivity.
Qed.

Lemma chat_send_no_prompt (prompt : string) (w : world) :
  truthy prompt = false ->
  chat_send E prompt w = (Ok tt, w, [Error "Please enter a question."]).
Proof. intros Hp. unfold chat_send. rewrite Hp. reflexivity. Qed.

(** Whatever the gateway does, the handler of "Send" ends normally. *)
Lemma chat_send_returns (prompt : string) (w : world) :
  result_of (chat_send E prompt w) = Ok tt.
Proof.
  destruct (truthy prompt) eqn:Hp.
  - destruct (reply_cases prompt) as [(r & g & Hg & Ht & Hne & Hr) | [H | H]].
    + rewrite (chat_send_success _ _ w Hp Hr). reflexivity.
    + destruct H as (r & Hg & Ht & _).
      rewrite (chat_send_empty_answer _ _ w Hp Hg Ht). reflexivity.
    + destruct H as (e & Hg & _).
      rewrite (chat_send_raises _ _ w Hp Hg). reflexivity.
  - rewrite (chat_send_no_prompt _ w Hp). reflexivity.
Qed.

(** Without an answer the handler leaves the world as it found it. *)
Lemma chat_send_unanswered (prompt : string) (w : world) :
  truthy prompt = false \/ reply E prompt = None ->
  world_of (chat_send E prompt w) = w.
Proof.
  intros H. destruct (truthy prompt) eqn:Hp.
  - destruct H as [H|H]; [discriminate|].
    destruct (reply_cases prompt) as [(r & g & _ & _ & _ & Hr) | [H' | H']].
    + congruence.
    + destruct H' as (r & Hg & Ht & _).
      rewrite (chat_send_empty_answer _ _ w Hp Hg Ht). reflexivity.
    + destruct H' as (e & Hg & _).
      rewrite (chat_send_raises _ _ w Hp Hg). reflexivity.
  - rewrite (chat_send_no_prompt _ w Hp). reflexivity.
Qed.

Lemma sidebar_run (i : inputs) (w : world) :
  sidebar E i w =
  (result_of (when (send i) (chat_send E (input_text i)) w),
   world_of (when (send i) (chat_send E (input_text i)) w),
   sidebar_widgets ++ trace_of (when (send i) (chat_send E (input_text i)) w)).
Proof.
  unfold sidebar. rewrite !bind_emit. simpl.
  destruct (when (send i) (chat_send E (input_text i)) w) as [[r w1] t1].
  reflexivity.
Qed.

Lemma sidebar_returns (i : inputs) (w : world) :
  result_of (sidebar E i w) = Ok tt.
Proof.
  rewrite sidebar_run. simpl. destruct (send i); simpl.
  - apply chat_send_returns.
  - reflexivity.
Qed.

End Chat.

(** ** One execution of the script *)

Section Execution.

Variable E : env.

Lemma startup_ok (w : world) :
  has_api_key E -> startup E w = (Ok tt, w, []).
Proof.
  unfold has_api_key, startup, os_getenv. intros H. rewrite H. reflexivity.
Qed.

Lemma startup_refuses (w : world) :
  truthy_opt (environ E !! "GOOGLE_API_KEY") = false ->
  startup E w =
  (Raise (ValueError "GOOGLE_API_KEY is not set in the environment variables"), w, []).
Proof. unfold startup, os_getenv. intros H. rewrite H. reflexivity. Qed.

Lemma page_setup_run (w : world) : page_setup w = (Ok tt, w, setup_events).
Proof. reflexivity. Qed.

(** The four [if nav == ...] statements run the selected page and nothing else. *)
Lemma dispatch (i : inputs) (w : world) :
  bind (when (is_nav (nav i) GetDrugsRecommendations) (page_recommendations E i))
       (fun _ =>
          bind (when (is_nav (nav i) ExploreKnowledgeGraph) (page_explore E i))
               (fun _ =>
                  bind (when (is_nav (nav i) ModelPerformanceMetrics) (page_metrics E))
                       (fun _ => when (is_nav (nav i) Help) page_help))) w =
  active_page E i w.
Proof.
  unfold active_page. destruct (nav i); simpl;
    rewrite ?bind_ret_l; try reflexivity;
    apply bind_skip; intros w'; reflexivity.
Qed.

Lemma script_run (i : inputs) (w : world) :
  has_api_key E ->
  script E i w =
  (result_of (active_page E i (world_of (sidebar E i w))),
   world_of (active_page E i (world_of (sidebar E i w))),
   setup_events ++ trace_of (sidebar E i w)
   ++ trace_of (active_page E i (world_of (sidebar E i w)))).
Proof.
  intros Hkey. unfold script.
  rewrite (bind_ok _ _ _ _ _ _ (startup_ok w Hkey)).
  rewrite (bind_ok _ _ _ _ _ _ (page_setup_run w)).
  pose proof (sidebar_returns E i w) as Hs.
  destruct (sidebar E i w) as [[r w1] t1] eqn:Hside. simpl in Hs. subst r.
  rewrite (bind_ok _ _ _ _ _ _ Hside). rewrite dispatch. reflexivity.
Qed.

(** Closure of the two frame properties over the whole script, given the
    same property of the sidebar. *)
Lemma keeps_session_script (i : inputs) :
  keeps_session (sidebar E i) -> keeps_session (script E i).
Proof.
  intros Hs w. unfold script.
  apply keeps_session_bind; [apply keeps_session_startup|]. intros _.
  apply keeps_session_bind; [apply keeps_session_page_setup|]. intros _.
  apply keeps_session_bind; [exact Hs|]. intros _ w1.
  rewrite dispatch. apply keeps_session_page.
Qed.

Lemma script_no_gateway (i : inputs) :
  emits_only (fun e => is_generate_content e = false) (sidebar E i) ->
  emits_only (fun e => is_generate_content e = false) (script E i).
Proof.
  intros Hs w. unfold script.
  apply emits_only_bind; [apply emits_only_startup|]. intros _.
  apply emits_only_bind; [apply page_setup_no_gateway|]. intros _.
  apply emits_only_bind; [exact Hs|]. intros _ w1.
  rewrite dispatch. apply page_no_gateway.
Qed.

(** *** Files *)

Lemma drop_chars_all (s : string) : drop_chars (String.length s) s = "".
Proof. induction s as [|c s IH]; simpl; [reflexivity | exact IH]. Qed.

Lemma open_present (path txt : string) (w : world) :
  files E !! path = Some txt ->
  open E path w =
  (Ok (List.length (open_files w)),
   set_open_files
     (open_files w ++ [{| file_path := path; file_text := txt; file_pos := 0 |}]) w,
   [OpenFile path]).
Proof. intros H. unfold open. rewrite H. reflexivity. Qed.

Lemma open_absent (path : string) (w : world) :
  files E !! path = None ->
  open E path w = (Raise (FileNotFoundError path), w, [OpenFile path]).
Proof. intros H. unfold open. rewrite H. reflexivity. Qed.

Lemma file_read_at (handle : nat) (f : TextIOWrapper) (w : world) :
  open_files w !! handle = Some f ->
  file_read handle w =
  (Ok (drop_chars (file_pos f) (file_text f)),
   set_open_files
     (<[handle := exhausted (file_path f) (file_text f)]> (open_files w)) w,
   []).
Proof. intros H. unfold file_read. rewrite H. reflexivity. Qed.

Lemma pd_read_csv_absent (path sep : string) (w : world) :
  files E !! path = None ->
  pd_read_csv E path sep w = (Raise (FileNotFoundError path), w, [OpenFile path]).
Proof. intros H. unfold pd_read_csv. rewrite bind_emit, H. reflexivity. Qed.

Lemma pd_read_csv_present (path sep txt : string) (w : world) :
  files E !! path = Some txt ->
  pd_read_csv E path sep w = (parse_csv E sep txt, w, [OpenFile path]).
Proof. intros H. unfold pd_read_csv. rewrite bind_emit, H. reflexivity. Qed.

(** *** The knowledge graph block *)

Lemma knowledge_graph_present (name txt : string) (w : world) :
  files E !! ("graphs/knowledge_graph_" ++ name ++ ".html")%string = Some txt ->
  knowledge_graph E name w =
  (Ok tt,
   set_open_files
     (open_files w ++ [exhausted ("graphs/knowledge_graph_" ++ name ++ ".html") txt]) w,
   [Markdown "<div style='text-align: center;'>";
    OpenFile ("graphs/knowledge_graph_" ++ name ++ ".html");
    ComponentsHtml txt 625 750;
    Markdown "</div>";
    DownloadButton "Download Knowledge Graph" ""
                   (name ++ "_knowledge_graph.html") "text/html"]).
Proof.
  intros Hfile. unfold knowledge_graph. rewrite bind_emit.
  rewrite (bind_ok _ _ _ _ _ _ (open_present _ _ w Hfile)).
  set (h := List.length (open_files w)).
  set (f0 := {| file_path := "graphs/knowledge_graph_" ++ name ++ ".html";
                file_text := txt; file_pos := 0 |}).
  assert (H1 : open_files (set_open_files (open_files w ++ [f0]) w) !! h = Some f0).
  { simpl. apply list_lookup_middle. reflexivity. }
  rewrite (bind_ok _ _ _ _ _ _ (file_read_at _ _ _ H1)).
  rewrite !bind_emit. unfold st_download_button.
  set (w2 := set_open_files _ _).
  assert (H2 : open_files w2 !! h =
               Some (exhausted ("graphs/knowledge_graph_" ++ name ++ ".html") txt)).
  { subst w2. simpl. apply list_lookup_insert_eq.
    rewrite length_app. simpl. subst h. lia. }
  rewrite (bind_ok _ _ _ _ _ _ (file_read_at _ _ _ H2)).
  simpl. rewrite drop_chars_all.
  subst w2 h. unfold set_open_files. simpl.
  rewrite list_insert_insert_eq.
  rewrite insert_app_r_alt by lia. rewrite Nat.sub_diag. reflexivity.
Qed.

Lemma knowledge_graph_absent (name : string) (w : world) :
  files E !! ("graphs/knowledge_graph_" ++ name ++ ".html")%string = None ->
  knowledge_graph E name w =
  (Raise (FileNotFoundError ("graphs/knowledge_graph_" ++ name ++ ".html")), w,
   [Markdown "<div style='text-align: center;'>";
    OpenFile ("graphs/knowledge_graph_" ++ name ++ ".html")]).
Proof.
  intros Hfile. unfold knowledge_graph. rewrite bind_emit.
  rewrite (bind_raise _ _ _ _ _ _ (open_absent _ w Hfile)). reflexivity.
Qed.

End Execution.

(** * The claims *)

(** ** The Performance Filter *)

Lemma model_performance_run (E : env) (key txt : string) (df : DataFrame)
    (i : nat) (w : world) :
  files E !! "embedding_models/performance_metrics.csv" = Some txt ->
  parse_csv E ";" txt = Ok df ->
  column_index "final_selection" (columns df) = Some i ->
  model_performance E key w =
  (match getitem_columns
           {| columns := columns df; rows := List.filter (row_matches i key) (rows df) |}
           ["Measure"; "Value"] with
   | Ok _ => Ok {| columns := columns df;
                   rows := List.filter (row_matches i key) (rows df) |}
   | Raise e => Raise e
   end,
   w,
   [OpenFile "embedding_models/performance_metrics.csv";
    Markdown "<h3 style='text-align: center; color:#F63366; font-size:28px;'><b>Embedding Model Performance<b></h3>"]
   ++ match getitem_columns
              {| columns := columns df;
                 rows := List.filter (row_matches i key) (rows df) |}
              ["Measure"; "Value"] with
      | Ok shown => [Dataframe shown]
      | Raise _ => []
      end).
Proof.
  intros Hfile Hparse Hcol. unfold model_performance.
  rewrite (bind_ok _ _ _ _ _ _
             (eq_trans (pd_read_csv_present E _ ";" _ w Hfile)
                       (f_equal (fun r => (r, w, [OpenFile _])) Hparse))).
  unfold lift at 1. unfold bind at 1.
  rewrite (performance_filter_rows df key i Hcol).
  rewrite bind_emit. unfold bind, lift, emit, ret.
  destruct (getitem_columns _ _) as [shown|e]; reflexivity.
Qed.

(** Lines 209-213 with no matching row: the filter returns a table without
    rows, which is shown restricted to [Measure] and [Value]. *)
Lemma performance_filter_no_match (E : env) (key txt : string) (df : DataFrame)
    (i j k : nat) (w : world) :
  files E !! "embedding_models/performance_metrics.csv" = Some txt ->
  parse_csv E ";" txt = Ok df ->
  column_index "final_selection" (columns df) = Some i ->
  column_index "Measure" (columns df) = Some j ->
  column_index "Value" (columns df) = Some k ->
  Forall (fun r => row_matches i key r = false) (rows df) ->
  performance_filter df key = Ok {| columns := columns df; rows := [] |} /\
  model_performance E key w =
  (Ok {| columns := columns df; rows := [] |}, w,
   [OpenFile "embedding_models/performance_metrics.csv";
    Markdown "<h3 style='text-align: center; color:#F63366; font-size:28px;'><b>Embedding Model Performance<b></h3>";
    Dataframe {| columns := ["Measure"; "Value"]; rows := [] |}]).
Proof.
  intros Hfile Hparse Hi Hj Hk Hnone. split.
  - rewrite (performance_filter_rows df key i Hi), (filter_none _ _ Hnone).
    reflexivity.
  - rewrite (model_performance_run E key txt df i w Hfile Hparse Hi).
    rewrite (filter_none _ _ Hnone).
    rewrite (getitem_columns_empty (columns df) ["Measure"; "Value"] [j; k]).
    + reflexivity.
    + simpl. rewrite Hj, Hk. reflexivity.
Qed.

(** What the comparison of a cell with the key decides. *)
Lemma row_matches_iff (i : nat) (key : string) (r : list cell) :
  row_matches i key r = true <-> nth i r NaN = Str key.
Proof.
  unfold row_matches, cell_eq_str.
  destruct (nth i r NaN) as [s| |].
  - rewrite String.eqb_eq. split; congruence.
  - split; discriminate.
  - split; discriminate.
Qed.

Lemma row_matches_false_iff (i : nat) (key : string) (r : list cell) :
  row_matches i key r = false <-> nth i r NaN <> Str key.
Proof.
  rewrite <- row_matches_iff. destruct (row_matches i key r); split; congruence.
Qed.

Lemma Forall_row_mismatch (i : nat) (key : string) (rs : list (list cell)) :
  Forall (fun r => nth i r NaN <> Str key) rs ->
  Forall (fun r => row_matches i key r = false) rs.
Proof.
  apply List.Forall_impl. intros r. apply row_matches_false_iff.
Qed.



(** ** The Selection Resolver and the artifacts *)

Lemma bind_trace {A B : Type} (m : M A) (f : A -> M B) (w : world) :
  exists rest, trace_of (bind m f w) = trace_of (m w) ++ rest.
Proof.
  unfold bind. destruct (m w) as [[[a|e] w1] t1]; simpl.
  - destruct (f a w1) as [[r w2] t2]. simpl. eauto.
  - exists []. rewrite app_nil_r. reflexivity.
Qed.

Lemma append_length (a b : string) :
  String.length (a ++ b) = String.length a + String.length b.
Proof. induction a as [|c a IH]; simpl; [reflexivity | rewrite IH; reflexivity]. Qed.

Section Artifacts.

Variable E : env.

Lemma drug_recommendations_absent (key : string) (w : world) :
  files E !! ("embedding_models/" ++ key ++ ".csv")%string = None ->
  drug_recommendations E key w =
  (Raise (FileNotFoundError ("embedding_models/" ++ key ++ ".csv")), w,
   [OpenFile ("embedding_models/" ++ key ++ ".csv")]).
Proof.
  intros Hfile. unfold drug_recommendations.
  rewrite (bind_raise _ _ _ _ _ _ (pd_read_csv_absent E _ "," w Hfile)).
  reflexivity.
Qed.

Lemma drug_recommendations_present (key txt : string) (ranking_file : DataFrame)
    (w : world) :
  files E !! ("embedding_models/" ++ key ++ ".csv")%string = Some txt ->
  parse_csv E "," txt = Ok ranking_file ->
  drug_recommendations E key w =
  (Ok tt, w,
   [OpenFile ("embedding_models/" ++ key ++ ".csv");
    Markdown "<h3 style='text-align: center; color:#F63366; font-size:28px;'><b>Drug Recommendations<b></h3>";
    ShowTable ranking_file;
    Markdown "<h3 style='text-align: center; color:#FFFFFF; font-size:18px;'><b>Model dependence affects how the values in the 'score' column should be read; typically, they cannot be taken directly as a probability.<b></h3>";
    Markdown "<h3 style='text-align: center; color:#FFFFFF; font-size:18px;'><b>If the compound is listed as 'yes' at ClinicalTrials.gov for the target disorders, then it is listed as 'no' in the 'in_clinical_trials' column.<b></h3>";
    DownloadButton "Download Recommendations" (to_csv E ranking_file)
                   (key ++ "_recommendations.csv") "text/csv"]).
Proof.
  intros Hfile Hparse. unfold drug_recommendations.
  rewrite (bind_ok _ _ _ _ _ _
             (eq_trans (pd_read_csv_present E _ "," _ w Hfile)
                       (f_equal (fun r => (r, w, [OpenFile _])) Hparse))).
  reflexivity.
Qed.

(** The first thing the block does is to open the ranking table. *)
Lemma drug_recommendations_first (key : string) (w : world) :
  exists rest,
    trace_of (drug_recommendations E key w) =
    OpenFile ("embedding_models/" ++ key ++ ".csv") :: rest.
Proof.
  unfold drug_recommendations.
  match goal with
  | |- context [trace_of (bind ?m ?f ?w0)] =>
      destruct (bind_trace m f w0) as [rest Hrest]
  end.
  rewrite Hrest. unfold pd_read_csv at 1. rewrite bind_emit. simpl. eauto.
Qed.

Lemma page_recommendations_run (i : inputs) (w : world) :
  page_recommendations E i w =
  (result_of (when (get_recommendations i)
                   (recommendations E (disease_name (disease_selection i))
                                    (model_name (model_selection i))) w),
   world_of (when (get_recommendations i)
                  (recommendations E (disease_name (disease_selection i))
                                   (model_name (model_selection i))) w),
   recommendation_widgets
   ++ trace_of (when (get_recommendations i)
                     (recommendations E (disease_name (disease_selection i))
                                      (model_name (model_selection i))) w)).
Proof.
  unfold page_recommendations, p_title. rewrite !bind_emit. simpl.
  destruct (when _ _ w) as [[r w1] t1]. reflexivity.
Qed.

Lemma page_explore_run (i : inputs) (w : world) :
  page_explore E i w =
  (result_of (knowledge_graph E (disease_name (disease_selection i)) w),
   world_of (knowledge_graph E (disease_name (disease_selection i)) w),
   explore_widgets
   ++ trace_of (knowledge_graph E (disease_name (disease_selection i)) w)).
Proof.
  unfold page_explore, p_title. rewrite !bind_emit. simpl.
  destruct (knowledge_graph _ _ w) as [[r w1] t1]. reflexivity.
Qed.

End Artifacts.

Lemma page_recommendations_opens (E : env) (i : inputs) (w : world) :
  get_recommendations i = true ->
  exists rest,
    trace_of (page_recommendations E i w) =
    recommendation_widgets
    ++ OpenFile ("embedding_models/"
                 ++ final_selection (disease_name (disease_selection i))
                                    (model_name (model_selection i))
                 ++ ".csv") :: rest.
Proof.
  intros Hget. rewrite page_recommendations_run, Hget.
  simpl when. cbn [trace_of snd]. unfold recommendations. cbv zeta.
  match goal with
  | |- context [trace_of (bind ?m ?f ?w0)] =>
      destruct (bind_trace m f w0) as [rest Hrest]
  end.
  rewrite Hrest.
  destruct (drug_recommendations_first E
              (final_selection (disease_name (disease_selection i))
                               (model_name (model_selection i))) w)
    as [rest' Hfirst].
  rewrite Hfirst. exists (rest' ++ rest). reflexivity.
Qed.

(** C1.  When "Get Recommendations" is pressed, the composite key is the
    disease followed directly by the model, whatever the two selections are
    and whether or not an artifact exists for them; the first file the page
    opens is [embedding_models/<key>.csv], and once that table has been
    loaded the download offered for it is named [<key>_recommendations.csv]. *)
Theorem composite_key (E : env) (i : inputs) (w : world) :
  get_recommendations i = true ->
  let disease := disease_name (disease_selection i) in
  let model := model_name (model_selection i) in
  let key := final_selection disease model in
  key = (disease ++ model)%string /\
  String.length key = String.length disease + String.length model /\
  (exists rest,
      trace_of (page_recommendations E i w) =
      recommendation_widgets ++ OpenFile ("embedding_models/" ++ key ++ ".csv") :: rest) /\
  (forall txt ranking_file,
      files E !! ("embedding_models/" ++ key ++ ".csv")%string = Some txt ->
      parse_csv E "," txt = Ok ranking_file ->
      In (DownloadButton "Download Recommendations" (to_csv E ranking_file)
                         (key ++ "_recommendations.csv") "text/csv")
         (trace_of (page_recommendations E i w))).
Proof.
  intros Hget disease model key.
  split; [reflexivity|]. split; [apply append_length|].
  split; [apply page_recommendations_opens; exact Hget|].
  rewrite page_recommendations_run, Hget. simpl when. cbn [trace_of snd].
  fold disease model. unfold recommendations. fold key. cbv zeta.
  - intros txt ranking_file Hfile Hparse.
    rewrite (bind_ok _ _ _ _ _ _
               (drug_recommendations_present E key txt ranking_file w Hfile Hparse)).
    cbn [trace_of snd]. apply in_or_app. right. apply in_or_app. left.
    simpl. tauto.
Qed.

Lemma composite_key_witness :
  final_selection "Dengue" "TransE" = "DengueTransE" /\
  String.length (final_selection "Dengue" "TransE") = 6 + 6 /\
  (exists rest,
      trace_of (page_recommendations demo_env
                  (demo_inputs GetDrugsRecommendations "" Dengue TransE) (start ∅)) =
      recommendation_widgets ++ OpenFile "embedding_models/DengueTransE.csv" :: rest) /\
  (forall txt ranking_file,
      files demo_env !! "embedding_models/DengueTransE.csv" = Some txt ->
      parse_csv demo_env "," txt = Ok ranking_file ->
      In (DownloadButton "Download Recommendations" (to_csv demo_env ranking_file)
                         "DengueTransE_recommendations.csv" "text/csv")
         (trace_of (page_recommendations demo_env
                      (demo_inputs GetDrugsRecommendations "" Dengue TransE)
                      (start ∅)))).
Proof.
  apply (composite_key demo_env
           (demo_inputs GetDrugsRecommendations "" Dengue TransE) (start ∅)).
  reflexivity.
Defined.

(** ** The knowledge graph *)

Lemma filter_sidebar (f : event -> bool) (t : list event) :
  (forall e, sidebar_event e = true -> f e = false) ->
  Forall (fun e => sidebar_event e = true) t ->
  List.filter f t = [].
Proof.
  intros Hf Ht. apply filter_none.
  induction Ht as [|e t He _ IH]; constructor; auto.
Qed.

Lemma explore_script_run (E : env) (i : inputs) (w : world) :
  has_api_key E ->
  nav i = ExploreKnowledgeGraph ->
  script E i w =
  (result_of (knowledge_graph E (disease_name (disease_selection i))
                (world_of (sidebar E i w))),
   world_of (knowledge_graph E (disease_name (disease_selection i))
               (world_of (sidebar E i w))),
   setup_events ++ trace_of (sidebar E i w) ++ explore_widgets
   ++ trace_of (knowledge_graph E (disease_name (disease_selection i))
                  (world_of (sidebar E i w)))).
Proof.
  intros Hkey Hnav. rewrite (script_run E i w Hkey).
  unfold active_page. rewrite Hnav, page_explore_run. reflexivity.
Qed.

(** C2.  The download button for the knowledge graph is named
    [<Disease>_knowledge_graph.html], but the script hands it the file object
    it has just read to the end: what is left to read from it, and so what
    the button offers, is the empty string. *)
Theorem graph_download_is_exhausted (E : env) (i : inputs) (w : world) (txt : string) :
  has_api_key E ->
  nav i = ExploreKnowledgeGraph ->
  files E !! ("graphs/knowledge_graph_" ++ disease_name (disease_selection i)
              ++ ".html")%string = Some txt ->
  List.filter is_download_button (trace_of (script E i w)) =
  [DownloadButton "Download Knowledge Graph" ""
     (disease_name (disease_selection i) ++ "_knowledge_graph.html") "text/html"].
Proof.
  intros Hkey Hnav Hfile.
  rewrite (explore_script_run E i w Hkey Hnav).
  rewrite (knowledge_graph_present E _ txt _ Hfile).
  cbn [trace_of snd]. rewrite !List.filter_app.
  rewrite (filter_sidebar is_download_button (trace_of (sidebar E i w))).
  - reflexivity.
  - intros [] H; (discriminate || reflexivity).
  - apply sidebar_events.
Qed.

Lemma graph_download_is_exhausted_witness :
  files demo_env !! "graphs/knowledge_graph_Dengue.html" = Some "<html>graph</html>" /\
  List.filter is_download_button
    (trace_of (script demo_env (demo_inputs ExploreKnowledgeGraph "" Dengue TransE)
                 (start ∅))) =
  [DownloadButton "Download Knowledge Graph" "" "Dengue_knowledge_graph.html"
     "text/html"].
Proof.
  split; [reflexivity|].
  apply (graph_download_is_exhausted demo_env
           (demo_inputs ExploreKnowledgeGraph "" Dengue TransE) (start ∅)
           "<html>graph</html>"); reflexivity.
Defined.

(** C8.  In the Explore Knowledge Graph mode, for every disease whose graph
    document is in place, one execution of the script opens exactly one
    file, [graphs/knowledge_graph_<Disease>.html], and embeds exactly one
    document, the text of that file. *)
Theorem explore_embeds_one_document (E : env) (i : inputs) (w : world) (txt : string) :
  has_api_key E ->
  nav i = ExploreKnowledgeGraph ->
  files E !! ("graphs/knowledge_graph_" ++ disease_name (disease_selection i)
              ++ ".html")%string = Some txt ->
  result_of (script E i w) = Ok tt /\
  List.filter is_open_file (trace_of (script E i w)) =
  [OpenFile ("graphs/knowledge_graph_" ++ disease_name (disease_selection i)
             ++ ".html")] /\
  List.filter is_components_html (trace_of (script E i w)) =
  [ComponentsHtml txt 625 750].
Proof.
  intros Hkey Hnav Hfile.
  rewrite (explore_script_run E i w Hkey Hnav).
  rewrite (knowledge_graph_present E _ txt _ Hfile).
  cbn [result_of trace_of fst snd]. split; [reflexivity|].
  rewrite !List.filter_app.
  rewrite (filter_sidebar is_open_file (trace_of (sidebar E i w)));
    [| intros [] H; (discriminate || reflexivity) | apply sidebar_events].
  rewrite (filter_sidebar is_components_html (trace_of (sidebar E i w)));
    [| intros [] H; (discriminate || reflexivity) | apply sidebar_events].
  split; reflexivity.
Qed.

Lemma explore_embeds_one_document_witness :
  result_of (script demo_env (demo_inputs ExploreKnowledgeGraph "hello" Dengue UM)
               (start ∅)) = Ok tt /\
  List.filter is_open_file
    (trace_of (script demo_env (demo_inputs ExploreKnowledgeGraph "hello" Dengue UM)
                 (start ∅))) =
  [OpenFile "graphs/knowledge_graph_Dengue.html"] /\
  List.filter is_components_html
    (trace_of (script demo_env (demo_inputs ExploreKnowledgeGraph "hello" Dengue UM)
                 (start ∅))) =
  [ComponentsHtml "<html>graph</html>" 625 750].
Proof.
  apply (explore_embeds_one_document demo_env
           (demo_inputs ExploreKnowledgeGraph "hello" Dengue UM) (start ∅)
           "<html>graph</html>"); reflexivity.
Defined.

(** ** Missing artifacts *)

Lemma recommendations_script_run (E : env) (i : inputs) (w : world) :
  has_api_key E ->
  nav i = GetDrugsRecommendations ->
  script E i w =
  (result_of (page_recommendations E i (world_of (sidebar E i w))),
   world_of (page_recommendations E i (world_of (sidebar E i w))),
   setup_events ++ trace_of (sidebar E i w)
   ++ trace_of (page_recommendations E i (world_of (sidebar E i w)))).
Proof.
  intros Hkey Hnav. rewrite (script_run E i w Hkey).
  unfold active_page. rewrite Hnav. reflexivity.
Qed.

(** C9.  With "Get Recommendations" pressed, the script tries to open
    [embedding_models/<Disease><Model>.csv]; when that file is absent, or it
    loads but the graph document of the disease is absent, and likewise when
    the graph document is absent in the Explore Knowledge Graph mode, the
    execution of the whole script ends with the [FileNotFoundError] of that
    file: nothing between the failing call and the top level catches it.
    For Dengue and TransE the file is [embedding_models/DengueTransE.csv]. *)
Theorem missing_artifact_propagates (E : env) (i : inputs) (w : world) :
  has_api_key E ->
  let disease := disease_name (disease_selection i) in
  let key := final_selection disease (model_name (model_selection i)) in
  (nav i = GetDrugsRecommendations -> get_recommendations i = true ->
   In (OpenFile ("embedding_models/" ++ key ++ ".csv")) (trace_of (script E i w))) /\
  (nav i = GetDrugsRecommendations -> get_recommendations i = true ->
   files E !! ("embedding_models/" ++ key ++ ".csv")%string = None ->
   result_of (script E i w) =
   Raise (FileNotFoundError ("embedding_models/" ++ key ++ ".csv"))) /\
  (nav i = GetDrugsRecommendations -> get_recommendations i = true ->
   forall txt ranking_file,
     files E !! ("embedding_models/" ++ key ++ ".csv")%string = Some txt ->
     parse_csv E "," txt = Ok ranking_file ->
     files E !! ("graphs/knowledge_graph_" ++ disease ++ ".html")%string = None ->
     result_of (script E i w) =
     Raise (FileNotFoundError ("graphs/knowledge_graph_" ++ disease ++ ".html"))) /\
  (nav i = ExploreKnowledgeGraph ->
   files E !! ("graphs/knowledge_graph_" ++ disease ++ ".html")%string = None ->
   result_of (script E i w) =
   Raise (FileNotFoundError ("graphs/knowledge_graph_" ++ disease ++ ".html"))) /\
  (disease_selection i = Dengue -> model_selection i = TransE ->
   ("embedding_models/" ++ key ++ ".csv")%string = "embedding_models/DengueTransE.csv").
Proof.
  intros Hkey disease key. repeat apply conj.
  - intros Hnav Hget.
    rewrite (recommendations_script_run E i w Hkey Hnav). cbn [trace_of snd].
    destruct (page_recommendations_opens E i (world_of (sidebar E i w)) Hget)
      as [rest Hrest].
    rewrite Hrest. fold disease key.
    rewrite !in_app_iff. right. right. right. left. reflexivity.
  - intros Hnav Hget Hfile.
    rewrite (recommendations_script_run E i w Hkey Hnav). cbn [result_of fst].
    rewrite page_recommendations_run, Hget. simpl when. cbn [result_of fst].
    unfold recommendations. fold disease key. cbv zeta.
    rewrite (bind_raise _ _ _ _ _ _ (drug_recommendations_absent E key _ Hfile)).
    reflexivity.
  - intros Hnav Hget txt ranking_file Hfile Hparse Hgraph.
    rewrite (recommendations_script_run E i w Hkey Hnav). cbn [result_of fst].
    rewrite page_recommendations_run, Hget. simpl when. cbn [result_of fst].
    unfold recommendations. fold disease key. cbv zeta.
    rewrite (bind_ok _ _ _ _ _ _
               (drug_recommendations_present E key txt ranking_file _ Hfile Hparse)).
    cbn [result_of fst]. rewrite !bind_emit. cbn [result_of fst].
    rewrite (bind_raise _ _ _ _ _ _ (knowledge_graph_absent E disease _ Hgraph)).
    reflexivity.
  - intros Hnav Hgraph.
    rewrite (explore_script_run E i w Hkey Hnav). cbn [result_of fst].
    fold disease. rewrite (knowledge_graph_absent E disease _ Hgraph).
    reflexivity.
  - intros Hd Hm. unfold key, disease. rewrite Hd, Hm. reflexivity.
Qed.

Lemma missing_artifact_propagates_witness :
  In (OpenFile "embedding_models/DengueTransE.csv")
     (trace_of (script demo_env (demo_inputs GetDrugsRecommendations "" Dengue TransE)
                  (start ∅))) /\
  result_of (script demo_env (demo_inputs GetDrugsRecommendations "" Chagas ERMLP)
               (start ∅)) =
  Raise (FileNotFoundError "embedding_models/ChagasERMLP.csv") /\
  result_of (script (demo_env_without "graphs/knowledge_graph_Dengue.html")
               (demo_inputs GetDrugsRecommendations "" Dengue TransE) (start ∅)) =
  Raise (FileNotFoundError "graphs/knowledge_graph_Dengue.html") /\
  result_of (script demo_env (demo_inputs ExploreKnowledgeGraph "" YellowFever TransE)
               (start ∅)) =
  Raise (FileNotFoundError "graphs/knowledge_graph_Yellow Fever.html").
Proof.
  assert (Hkey : has_api_key demo_env) by reflexivity.
  assert (Hkey' : has_api_key (demo_env_without "graphs/knowledge_graph_Dengue.html"))
    by reflexivity.
  repeat apply conj.
  - apply (proj1 (missing_artifact_propagates demo_env
                    (demo_inputs GetDrugsRecommendations "" Dengue TransE)
                    (start ∅) Hkey)); reflexivity.
  - apply (proj1 (proj2 (missing_artifact_propagates demo_env
                           (demo_inputs GetDrugsRecommendations "" Chagas ERMLP)
                           (start ∅) Hkey))); reflexivity.
  - apply (proj1 (proj2 (proj2 (missing_artifact_propagates
                                  (demo_env_without "graphs/knowledge_graph_Dengue.html")
                                  (demo_inputs GetDrugsRecommendations "" Dengue TransE)
                                  (start ∅) Hkey')))
             eq_refl eq_refl "drug,score,in_clinical_trials" demo_ranking);
      reflexivity.
  - apply (proj1 (proj2 (proj2 (proj2 (missing_artifact_propagates demo_env
                                         (demo_inputs ExploreKnowledgeGraph ""
                                                      YellowFever TransE)
                                         (start ∅) Hkey))))); reflexivity.
Defined.

(** ** The chat log *)

Lemma chat_log_insert (ss : gmap string (list ChatTurn)) (log : list ChatTurn) :
  chat_log (<["chat_history" := log]> ss) = log.
Proof. unfold chat_log. rewrite lookup_insert_eq. reflexivity. Qed.

Lemma keeps_session_sidebar_idle (E : env) (i : inputs) :
  (send i = true -> truthy (input_text i) = false \/ reply E (input_text i) = None) ->
  keeps_session (sidebar E i).
Proof.
  intros H w. rewrite sidebar_run. cbn [world_of fst snd].
  destruct (send i); simpl when.
  - rewrite (chat_send_unanswered E _ w (H eq_refl)). reflexivity.
  - reflexivity.
Qed.

Lemma interact_success (ss : gmap string (list ChatTurn)) (r : env * inputs) :
  successful_chat r = true ->
  interact ss r = <["chat_history" := chat_log ss ++ exchange r]> ss.
Proof.
  destruct r as [E i]. unfold successful_chat, exchange. simpl fst. simpl snd.
  intros H. apply andb_prop in H as [H Hr]. apply andb_prop in H as [H Hp].
  apply andb_prop in H as [Hkey Hsend].
  destruct (reply E (input_text i)) as [generated|] eqn:Hg; [|discriminate].
  unfold interact. simpl fst. simpl snd.
  rewrite (script_run E i _ Hkey). cbn [world_of fst snd].
  rewrite keeps_session_page.
  rewrite sidebar_run. cbn [world_of fst snd]. rewrite Hsend. simpl when.
  rewrite (chat_send_success E _ generated _ Hp Hg).
  reflexivity.
Qed.

Lemma interact_otherwise (ss : gmap string (list ChatTurn)) (r : env * inputs) :
  successful_chat r = false ->
  interact ss r = ss.
Proof.
  destruct r as [E i]. unfold successful_chat, interact. simpl fst. simpl snd.
  intros H.
  destruct (truthy_opt (environ E !! "GOOGLE_API_KEY")) eqn:Hkey.
  - apply (keeps_session_script E i). apply keeps_session_sidebar_idle.
    intros Hsend. rewrite Hsend in H. simpl in H.
    destruct (truthy (input_text i)); [right | left; reflexivity].
    destruct (reply E (input_text i)); [discriminate | reflexivity].
  - unfold script.
    rewrite (bind_raise _ _ _ _ _ _ (startup_refuses E (start ss) Hkey)).
    reflexivity.
Qed.

Lemma session_from (rs : list (env * inputs)) (ss : gmap string (list ChatTurn)) :
  chat_log (fold_left interact rs ss) =
  chat_log ss ++ concat (map exchange (List.filter successful_chat rs)).
Proof.
  revert ss. induction rs as [|r rs IH]; intros ss; simpl.
  - rewrite app_nil_r. reflexivity.
  - rewrite IH. destruct (successful_chat r) eqn:Hr.
    + rewrite (interact_success ss r Hr), chat_log_insert. simpl.
      rewrite <- app_assoc. reflexivity.
    + rewrite (interact_otherwise ss r Hr). reflexivity.
Qed.

Lemma exchanges_length (rs : list (env * inputs)) :
  List.length (concat (map exchange rs)) = 2 * List.length rs.
Proof. induction rs as [|r rs IH]; simpl; [reflexivity | rewrite IH; lia]. Qed.

Lemma exchanges_speakers (rs : list (env * inputs)) :
  map fst (concat (map exchange rs)) = concat (replicate (List.length rs) ["You"; "Bot"]).
Proof. induction rs as [|r rs IH]; simpl; [reflexivity | rewrite IH; reflexivity]. Qed.

(** C3.  Whatever else happens in a session started from an empty session
    state, its chat log consists of the turns of its successful chat
    interactions and nothing more: with N of them the log has exactly 2N
    entries, for each successful interaction in chronological order the
    user's message followed by the bot's answer, so that the speakers
    alternate You, Bot, You, Bot, ... *)
Theorem chat_log_after_successes (rs : list (env * inputs)) :
  chat_log (session rs) = concat (map exchange (List.filter successful_chat rs)) /\
  List.length (chat_log (session rs)) =
  2 * List.length (List.filter successful_chat rs) /\
  map fst (chat_log (session rs)) =
  concat (replicate (List.length (List.filter successful_chat rs)) ["You"; "Bot"]).
Proof.
  assert (Hlog : chat_log (session rs) =
                 concat (map exchange (List.filter successful_chat rs))).
  { unfold session. rewrite (session_from rs ∅). reflexivity. }
  rewrite Hlog. split; [reflexivity|]. split.
  - apply exchanges_length.
  - apply exchanges_speakers.
Qed.

(** A session of two successful interactions around a failed one. *)
Example chat_log_of_three_interactions :
  chat_log (session [(demo_env, demo_inputs Help "hello" Dengue TransE);
                     (demo_env, demo_inputs Help "boom" Dengue TransE);
                     (demo_env, demo_inputs GetDrugsRecommendations "why?" Chagas UM)]) =
  [("You", "hello"); ("Bot", "re: hello"); ("You", "why?"); ("Bot", "re: why?")].
Proof. vm_compute. reflexivity. Qed.

(** C10.  An execution in which the question is empty, or in which the
    gateway gives no answer (it raises, or the text it returns is empty),
    leaves the session state, and with it the chat log, exactly as it was:
    no turn is appended, not even the user's. *)
Theorem unanswered_chat_keeps_log (E : env) (i : inputs) (w : world) :
  truthy (input_text i) = false \/ reply E (input_text i) = None ->
  session_state (world_of (script E i w)) = session_state w /\
  forall ss, chat_log (interact ss (E, i)) = chat_log ss.
Proof.
  intros H.
  pose proof (keeps_session_script E i
                (keeps_session_sidebar_idle E i (fun _ => H))) as Hkeep.
  split.
  - apply Hkeep.
  - intros ss. unfold interact. simpl fst. simpl snd. rewrite Hkeep. reflexivity.
Qed.

Lemma unanswered_chat_keeps_log_witness :
  session_state
    (world_of (script demo_env (demo_inputs Help "boom" Dengue TransE)
                 (start {[ "chat_history" := [("You", "hi"); ("Bot", "re: hi")] ]}))) =
  session_state (start {[ "chat_history" := [("You", "hi"); ("Bot", "re: hi")] ]}) /\
  forall ss, chat_log (interact ss (demo_env, demo_inputs Help "boom" Dengue TransE)) =
             chat_log ss.
Proof.
  apply (unanswered_chat_keeps_log demo_env (demo_inputs Help "boom" Dengue TransE)
           (start {[ "chat_history" := [("You", "hi"); ("Bot", "re: hi")] ]})).
  right. reflexivity.
Defined.

(** ** Chat failures *)

(** C6.  When the gateway call raises (in the call itself or on reading the
    text of its result), [get_gemini_response] catches the exception,
    reports "Error communicating with the Google Gemini API" and returns
    [None]; the sidebar then reports the failure and ends normally with the
    world unchanged, and the execution goes on with the selected page as if
    "Send" had not been pressed. *)
Theorem gateway_exception_is_caught (E : env) (i : inputs) (w : world) (e : exn) :
  has_api_key E ->
  send i = true ->
  truthy (input_text i) = true ->
  gateway_raises E (input_text i) e ->
  get_gemini_response E (input_text i) w =
  (Ok None, w,
   [GenerateContent (input_text i);
    Error ("Error communicating with the Google Gemini API: " ++ exn_str e)]) /\
  sidebar E i w =
  (Ok tt, w,
   sidebar_widgets
   ++ [GenerateContent (input_text i);
       Error ("Error communicating with the Google Gemini API: " ++ exn_str e);
       Error "Failed to get a response from the chatbot"]) /\
  script E i w =
  (result_of (active_page E i w), world_of (active_page E i w),
   setup_events
   ++ (sidebar_widgets
       ++ [GenerateContent (input_text i);
           Error ("Error communicating with the Google Gemini API: " ++ exn_str e);
           Error "Failed to get a response from the chatbot"])
   ++ trace_of (active_page E i w)).
Proof.
  intros Hkey Hsend Hp Hraise.
  assert (Hside : sidebar E i w =
                  (Ok tt, w,
                   sidebar_widgets
                   ++ [GenerateContent (input_text i);
                       Error ("Error communicating with the Google Gemini API: "
                              ++ exn_str e);
                       Error "Failed to get a response from the chatbot"])).
  { rewrite sidebar_run, Hsend. simpl when.
    rewrite (chat_send_raises E _ e w Hp Hraise). reflexivity. }
  split; [apply gemini_raises; assumption|].
  split; [exact Hside|].
  rewrite (script_run E i w Hkey), Hside. reflexivity.
Qed.

Lemma gateway_exception_is_caught_witness :
  get_gemini_response demo_env "boom" (start ∅) =
  (Ok None, start ∅,
   [GenerateContent "boom";
    Error "Error communicating with the Google Gemini API: quota exceeded"]) /\
  sidebar demo_env (demo_inputs Help "boom" Dengue TransE) (start ∅) =
  (Ok tt, start ∅,
   sidebar_widgets
   ++ [GenerateContent "boom";
       Error "Error communicating with the Google Gemini API: quota exceeded";
       Error "Failed to get a response from the chatbot"]) /\
  script demo_env (demo_inputs Help "boom" Dengue TransE) (start ∅) =
  (result_of (active_page demo_env (demo_inputs Help "boom" Dengue TransE) (start ∅)),
   world_of (active_page demo_env (demo_inputs Help "boom" Dengue TransE) (start ∅)),
   setup_events
   ++ (sidebar_widgets
       ++ [GenerateContent "boom";
           Error "Error communicating with the Google Gemini API: quota exceeded";
           Error "Failed to get a response from the chatbot"])
   ++ trace_of (active_page demo_env (demo_inputs Help "boom" Dengue TransE)
                  (start ∅))).
Proof.
  apply (gateway_exception_is_caught demo_env (demo_inputs Help "boom" Dengue TransE)
           (start ∅) (Exception "RuntimeError" "quota exceeded")).
  - reflexivity.
  - reflexivity.
  - reflexivity.
  - left. reflexivity.
Defined.

(** C7.  When "Send" is pressed with nothing typed, the sidebar shows
    "Please enter a question." and leaves the world unchanged, and the whole
    execution sends no prompt to the gateway; [get_gemini_response] itself,
    given the empty string, returns [None] without calling it. *)
Theorem empty_question (E : env) (i : inputs) (w : world) :
  send i = true ->
  input_text i = "" ->
  sidebar E i w = (Ok tt, w, sidebar_widgets ++ [Error "Please enter a question."]) /\
  Forall (fun e => is_generate_content e = false) (trace_of (script E i w)) /\
  get_gemini_response E (input_text i) w = (Ok None, w, []).
Proof.
  intros Hsend Hempty.
  assert (Hside : forall w', sidebar E i w' =
                             (Ok tt, w',
                              sidebar_widgets ++ [Error "Please enter a question."])).
  { intros w'. rewrite sidebar_run, Hsend, Hempty. reflexivity. }
  split; [apply Hside|]. split.
  - apply script_no_gateway. intros w'. rewrite Hside.
    repeat constructor.
  - apply gemini_no_prompt. rewrite Hempty. reflexivity.
Qed.

Lemma empty_question_witness :
  sidebar demo_env (demo_inputs ExploreKnowledgeGraph "" Dengue TransE) (start ∅) =
  (Ok tt, start ∅, sidebar_widgets ++ [Error "Please enter a question."]) /\
  Forall (fun e => is_generate_content e = false)
         (trace_of (script demo_env (demo_inputs ExploreKnowledgeGraph "" Dengue TransE)
                      (start ∅))) /\
  get_gemini_response demo_env "" (start ∅) = (Ok None, start ∅, []).
Proof.
  apply (empty_question demo_env (demo_inputs ExploreKnowledgeGraph "" Dengue TransE)
           (start ∅)); reflexivity.
Defined.

(** ** The performance rows of a selection without any *)

(** C4.  When no row of the performance table carries the composite key,
    the filter returns a table without rows and the page shows that empty
    table, restricted to [Measure] and [Value], without an error.  The
    caller does not stop there: it goes on to chart the same empty table,
    and when the plotter rejects a table without rows, as the bar plot of
    pandas does, the execution ends with the plotter's exception and without
    a chart. *)
Theorem empty_performance_chart_raises (E : env) (i : inputs) (w : world)
    (txt gtxt ptxt : string) (ranking_file performance_file : DataFrame)
    (c j k : nat) (e : exn) :
  let disease := disease_name (disease_selection i) in
  let key := final_selection disease (model_name (model_selection i)) in
  has_api_key E ->
  nav i = GetDrugsRecommendations ->
  get_recommendations i = true ->
  files E !! ("embedding_models/" ++ key ++ ".csv")%string = Some txt ->
  parse_csv E "," txt = Ok ranking_file ->
  files E !! ("graphs/knowledge_graph_" ++ disease ++ ".html")%string = Some gtxt ->
  files E !! "embedding_models/performance_metrics.csv" = Some ptxt ->
  parse_csv E ";" ptxt = Ok performance_file ->
  column_index "final_selection" (columns performance_file) = Some c ->
  column_index "Measure" (columns performance_file) = Some j ->
  column_index "Value" (columns performance_file) = Some k ->
  Forall (fun r => nth c r NaN <> Str key) (rows performance_file) ->
  plot_bar E {| columns := columns performance_file; rows := [] |}
           "Measure" "Value" = Some e ->
  performance_filter performance_file key =
  Ok {| columns := columns performance_file; rows := [] |} /\
  In (Dataframe {| columns := ["Measure"; "Value"]; rows := [] |})
     (trace_of (script E i w)) /\
  result_of (script E i w) = Raise e /\
  List.filter is_pyplot (trace_of (script E i w)) = [].
Proof.
  intros disease key Hkey Hnav Hget Hcsv Hparse Hgraph Hperf Hpparse
         Hc Hj Hk Hnone Hplot.
  apply Forall_row_mismatch in Hnone.
  destruct (performance_filter_no_match E key ptxt performance_file c j k
              (set_open_files
                 (open_files (world_of (sidebar E i w))
                  ++ [exhausted ("graphs/knowledge_graph_" ++ disease ++ ".html") gtxt])
                 (world_of (sidebar E i w)))
              Hperf Hpparse Hc Hj Hk Hnone) as [Hfilter Hmodel].
  split; [exact Hfilter|].
  rewrite (recommendations_script_run E i w Hkey Hnav).
  rewrite page_recommendations_run, Hget. simpl when.
  fold disease. unfold recommendations. fold key. cbv zeta.
  rewrite (bind_ok _ _ _ _ _ _
             (drug_recommendations_present E key txt ranking_file _ Hcsv Hparse)).
  rewrite !bind_emit.
  rewrite (bind_ok _ _ _ _ _ _ (knowledge_graph_present E disease gtxt _ Hgraph)).
  rewrite (bind_ok _ _ _ _ _ _ Hmodel).
  unfold plot_and_show. rewrite Hplot.
  cbn [result_of trace_of fst snd bind raise].
  split; [|split; [reflexivity|]].
  - rewrite !in_app_iff. right. right. right. simpl. tauto.
  - rewrite !List.filter_app.
    rewrite (filter_sidebar is_pyplot (trace_of (sidebar E i w)));
      [reflexivity | intros [] H; (discriminate || reflexivity) | apply sidebar_events].
Qed.

Lemma empty_performance_chart_raises_witness :
  performance_filter demo_performance "ChagasERMLP" =
  Ok {| columns := ["final_selection"; "Measure"; "Value"]; rows := [] |} /\
  In (Dataframe {| columns := ["Measure"; "Value"]; rows := [] |})
     (trace_of (script demo_env_chagas
                  (demo_inputs GetDrugsRecommendations "" Chagas ERMLP) (start ∅))) /\
  result_of (script demo_env_chagas
               (demo_inputs GetDrugsRecommendations "" Chagas ERMLP) (start ∅)) =
  Raise (Exception "IndexError" "index 0 is out of bounds for axis 0 with size 0") /\
  List.filter is_pyplot
    (trace_of (script demo_env_chagas
                 (demo_inputs GetDrugsRecommendations "" Chagas ERMLP) (start ∅))) = [].
Proof.
  apply (empty_performance_chart_raises demo_env_chagas
           (demo_inputs GetDrugsRecommendations "" Chagas ERMLP) (start ∅)
           "drug,score,in_clinical_trials" "<html>chagas</html>"
           "final_selection;Measure;Value" demo_ranking demo_performance 0 1 2
           (Exception "IndexError" "index 0 is out of bounds for axis 0 with size 0"));
    try reflexivity.
  repeat constructor; discriminate.
Defined.

(** * Further properties of the script *)

(** ** Start-up *)

(** X1.  When [GOOGLE_API_KEY] is not set, or is set to the empty string,
    the execution ends at once with [ValueError]: nothing is drawn, no file
    is opened, the gateway is not called and the session state is left as it
    was. *)
Theorem startup_without_key (E : env) (i : inputs) (w : world) :
  environ E !! "GOOGLE_API_KEY" = None \/ environ E !! "GOOGLE_API_KEY" = Some "" ->
  script E i w =
  (Raise (ValueError "GOOGLE_API_KEY is not set in the environment variables"), w, []).
Proof.
  intros H.
  assert (Hkey : truthy_opt (environ E !! "GOOGLE_API_KEY") = false).
  { destruct H as [H|H]; rewrite H; reflexivity. }
  unfold script.
  rewrite (bind_raise _ _ _ _ _ _ (startup_refuses E w Hkey)). reflexivity.
Qed.

Lemma startup_without_key_witness :
  script (with_environ ∅ demo_env) (demo_inputs Help "hello" Dengue TransE) (start ∅) =
  (Raise (ValueError "GOOGLE_API_KEY is not set in the environment variables"),
   start ∅, []) /\
  script (with_environ {[ "GOOGLE_API_KEY" := "" ]} demo_env)
         (demo_inputs Help "hello" Dengue TransE) (start ∅) =
  (Raise (ValueError "GOOGLE_API_KEY is not set in the environment variables"),
   start ∅, []).
Proof.
  split.
  - apply (startup_without_key (with_environ ∅ demo_env)). left. reflexivity.
  - apply (startup_without_key (with_environ {[ "GOOGLE_API_KEY" := "" ]} demo_env)).
    right. reflexivity.
Defined.

(** ** The gateway client *)

(** X2.  [get_gemini_response] never raises and never changes the world,
    whatever the gateway does.  It returns a text exactly when the prompt is
    not empty and the gateway produced that text, and it calls the gateway
    once, with the prompt as given, when the prompt is not empty and not at
    all otherwise. *)
Theorem get_gemini_response_total (E : env) (prompt : string) (w : world) :
  exists answer t,
    get_gemini_response E prompt w = (Ok answer, w, t) /\
    (forall generated,
        answer = Some generated <->
        truthy prompt = true /\
        exists response,
          generate_content E prompt = Ok response /\ text response = Ok generated) /\
    List.filter is_generate_content t =
    if truthy prompt then [GenerateContent prompt] else [].
Proof.
  destruct (truthy prompt) eqn:Hp.
  - destruct (generate_content E prompt) as [response|e] eqn:Hg.
    + destruct (text response) as [generated|e] eqn:Ht.
      * exists (Some generated), [GenerateContent prompt].
        split; [apply (gemini_answers E _ _ response w Hp Hg Ht)|].
        split; [|reflexivity].
        intros g. split.
        -- intros Heq. injection Heq as <-. split; [reflexivity|].
           exists response. auto.
        -- intros [_ [response' [Hg' Ht']]].
           injection Hg' as <-. congruence.
      * exists None. eexists.
        split; [apply (gemini_raises E _ e w Hp); right; exists response; auto|].
        split; [|reflexivity].
        intros g. split; [discriminate|].
        intros [_ [response' [Hg' Ht']]]. injection Hg' as <-. congruence.
    + exists None. eexists.
      split; [apply (gemini_raises E _ e w Hp); left; exact Hg|].
      split; [|reflexivity].
      intros g. split; [discriminate|].
      intros [_ [response' [Hg' _]]]. discriminate.
  - exists None, []. split; [apply gemini_no_prompt; exact Hp|].
    split; [|reflexivity].
    intros g. split; [discriminate|]. intros [H _]. discriminate.
Qed.

(** ** The chat *)

Lemma chat_send_calls (E : env) (prompt : string) (w : world) :
  truthy prompt = true ->
  List.filter is_generate_content (trace_of (chat_send E prompt w)) =
  [GenerateContent prompt].
Proof.
  intros Hp.
  destruct (reply_cases E prompt) as [(r & g & Hg & Ht & Hne & Hr) | [H | H]].
  - rewrite (chat_send_success E _ _ w Hp Hr). reflexivity.
  - destruct H as (r & Hg & Ht & _).
    rewrite (chat_send_empty_answer E _ _ w Hp Hg Ht). reflexivity.
  - destruct H as (e & Hg & _).
    rewrite (chat_send_raises E _ _ w Hp Hg). reflexivity.
Qed.

Lemma sidebar_calls (E : env) (i : inputs) (w : world) :
  List.filter is_generate_content (trace_of (sidebar E i w)) =
  if send i && truthy (input_text i) then [GenerateContent (input_text i)] else [].
Proof.
  rewrite sidebar_run. cbn [trace_of snd]. rewrite List.filter_app.
  change (List.filter is_generate_content sidebar_widgets) with (@nil event).
  destruct (send i); simpl when; [|reflexivity].
  destruct (truthy (input_text i)) eqn:Hp; simpl.
  - apply chat_send_calls. exact Hp.
  - rewrite (chat_send_no_prompt E _ w Hp). reflexivity.
Qed.

(** X3.  One execution of the script calls the gateway at most once: once,
    with exactly the text typed into the chat box, when "Send" is pressed
    with a question and the credential is there, and not at all otherwise.
    Nothing of earlier turns is sent along. *)
Theorem gateway_calls (E : env) (i : inputs) (w : world) :
  List.filter is_generate_content (trace_of (script E i w)) =
  if chat_requested E i then [GenerateContent (input_text i)] else [].
Proof.
  unfold chat_requested.
  destruct (truthy_opt (environ E !! "GOOGLE_API_KEY")) eqn:Hkey.
  - rewrite (script_run E i w Hkey). cbn [trace_of snd].
    rewrite !List.filter_app.
    change (List.filter is_generate_content setup_events) with (@nil event).
    rewrite (filter_none is_generate_content
               (trace_of (active_page E i (world_of (sidebar E i w))))
               (page_no_gateway E i _)).
    rewrite sidebar_calls, app_nil_r. reflexivity.
  - unfold script.
    rewrite (bind_raise _ _ _ _ _ _ (startup_refuses E w Hkey)). reflexivity.
Qed.

(** X4.  An interaction leaves the chat log as it was, or, when it is a
    successful chat interaction, extends it by the user's message and the
    bot's answer, whatever the log held before: what is logged is never
    removed or rewritten. *)
Theorem interaction_extends_log (ss : gmap string (list ChatTurn)) (r : env * inputs) :
  chat_log (interact ss r) =
  chat_log ss ++ (if successful_chat r then exchange r else []).
Proof.
  destruct (successful_chat r) eqn:Hr.
  - rewrite (interact_success ss r Hr). apply chat_log_insert.
  - rewrite (interact_otherwise ss r Hr), app_nil_r. reflexivity.
Qed.

(** X5.  An answer whose text is empty counts as no answer: the sidebar
    shows "Failed to get a response from the chatbot" (and no communication
    error, since nothing was raised), and the world is left unchanged. *)
Theorem empty_answer_is_failure (E : env) (i : inputs) (w : world)
    (response : GenerateContentResponse) :
  send i = true ->
  truthy (input_text i) = true ->
  generate_content E (input_text i) = Ok response ->
  text response = Ok "" ->
  sidebar E i w =
  (Ok tt, w,
   sidebar_widgets
   ++ [GenerateContent (input_text i);
       Error "Failed to get a response from the chatbot"]).
Proof.
  intros Hsend Hp Hg Ht. rewrite sidebar_run, Hsend. simpl when.
  rewrite (chat_send_empty_answer E _ response w Hp Hg Ht). reflexivity.
Qed.

Lemma empty_answer_is_failure_witness :
  sidebar demo_env (demo_inputs Help "silence" Dengue TransE) (start ∅) =
  (Ok tt, start ∅,
   sidebar_widgets
   ++ [GenerateContent "silence"; Error "Failed to get a response from the chatbot"]).
Proof.
  apply (empty_answer_is_failure demo_env (demo_inputs Help "silence" Dengue TransE)
           (start ∅) {| text := Ok "" |}); reflexivity.
Defined.

(** X6.  When the gateway answers, the sidebar draws the answer inside the
    [chatbot-response] block and logs the question and that same answer, in
    this order, at the end of the chat log; the key [chat_history] is created
    if it was not there. *)
Theorem answer_shown_and_logged (E : env) (i : inputs) (w : world) (generated : string) :
  send i = true ->
  truthy (input_text i) = true ->
  reply E (input_text i) = Some generated ->
  sidebar E i w =
  (Ok tt,
   set_session
     (<["chat_history" :=
          chat_log (session_state w)
          ++ [("You", input_text i); ("Bot", generated)]]> (session_state w)) w,
   sidebar_widgets
   ++ [GenerateContent (input_text i);
       Markdown ("<div class=" ++ dq ++ "chatbot-response" ++ dq ++ ">"
                 ++ generated ++ "</div>")]).
Proof.
  intros Hsend Hp Hr. rewrite sidebar_run, Hsend. simpl when.
  rewrite (chat_send_success E _ generated w Hp Hr). reflexivity.
Qed.

Lemma answer_shown_and_logged_witness :
  sidebar demo_env (demo_inputs Help "hello" Dengue TransE) (start ∅) =
  (Ok tt,
   set_session
     (<["chat_history" :=
          chat_log (session_state (start ∅))
          ++ [("You", input_text (demo_inputs Help "hello" Dengue TransE));
              ("Bot", "re: hello")]]> (session_state (start ∅))) (start ∅),
   sidebar_widgets
   ++ [GenerateContent (input_text (demo_inputs Help "hello" Dengue TransE));
       Markdown ("<div class=" ++ dq ++ "chatbot-response" ++ dq ++ ">"
                 ++ "re: hello" ++ "</div>")]).
Proof.
  apply (answer_shown_and_logged demo_env (demo_inputs Help "hello" Dengue TransE)
           (start ∅) "re: hello"); reflexivity.
Defined.

(** X7.  The chat is handled before the page: when a question is answered
    in an execution whose page then fails on a missing graph document, the
    execution ends with the [FileNotFoundError], and yet the answer has been
    drawn and the two turns are in the chat log of the session. *)
Theorem chat_survives_failing_page (E : env) (i : inputs)
    (ss : gmap string (list ChatTurn)) (generated : string) :
  has_api_key E ->
  send i = true ->
  truthy (input_text i) = true ->
  reply E (input_text i) = Some generated ->
  nav i = ExploreKnowledgeGraph ->
  files E !! ("graphs/knowledge_graph_" ++ disease_name (disease_selection i)
              ++ ".html")%string = None ->
  result_of (script E i (start ss)) =
  Raise (FileNotFoundError ("graphs/knowledge_graph_"
                            ++ disease_name (disease_selection i) ++ ".html")) /\
  In (Markdown ("<div class=" ++ dq ++ "chatbot-response" ++ dq ++ ">"
                ++ generated ++ "</div>"))
     (trace_of (script E i (start ss))) /\
  chat_log (interact ss (E, i)) =
  chat_log ss ++ [("You", input_text i); ("Bot", generated)].
Proof.
  intros Hkey Hsend Hp Hr Hnav Hgraph.
  rewrite (explore_script_run E i (start ss) Hkey Hnav).
  rewrite (knowledge_graph_absent E _ _ Hgraph).
  cbn [result_of trace_of fst snd]. split; [reflexivity|]. split.
  - rewrite sidebar_run, Hsend. simpl when.
    rewrite (chat_send_success E _ generated _ Hp Hr).
    cbn [trace_of snd]. rewrite !in_app_iff. simpl. tauto.
  - assert (Hs : successful_chat (E, i) = true).
    { unfold successful_chat. simpl fst. simpl snd.
      unfold has_api_key in Hkey. rewrite Hkey, Hsend, Hp, Hr. reflexivity. }
    rewrite (interact_success ss (E, i) Hs), chat_log_insert.
    unfold exchange. simpl fst. simpl snd. rewrite Hr. reflexivity.
Qed.

Lemma chat_survives_failing_page_witness :
  result_of (script demo_env (demo_inputs ExploreKnowledgeGraph "hello" Malaria TransE)
               (start ∅)) =
  Raise (FileNotFoundError "graphs/knowledge_graph_Malaria.html") /\
  In (Markdown ("<div class=" ++ dq ++ "chatbot-response" ++ dq ++ ">"
                ++ "re: hello" ++ "</div>"))
     (trace_of (script demo_env
                  (demo_inputs ExploreKnowledgeGraph "hello" Malaria TransE)
                  (start ∅))) /\
  chat_log (interact ∅ (demo_env,
                        demo_inputs ExploreKnowledgeGraph "hello" Malaria TransE)) =
  chat_log ∅ ++ [("You", "hello"); ("Bot", "re: hello")].
Proof.
  apply (chat_survives_failing_page demo_env
           (demo_inputs ExploreKnowledgeGraph "hello" Malaria TransE) ∅ "re: hello");
    reflexivity.
Defined.

(** ** The recommendations page *)

(** X8.  On the recommendations page nothing is loaded until "Get
    Recommendations" is pressed: the page draws its two select boxes and the
    button, opens no file and ends normally, whether or not the artifacts of
    the selection exist. *)
Theorem no_load_before_button (E : env) (i : inputs) (w : world) :
  has_api_key E ->
  nav i = GetDrugsRecommendations ->
  get_recommendations i = false ->
  script E i w =
  (Ok tt, world_of (sidebar E i w),
   setup_events ++ trace_of (sidebar E i w) ++ recommendation_widgets) /\
  List.filter is_open_file (trace_of (script E i w)) = [].
Proof.
  intros Hkey Hnav Hget.
  assert (Hrun : script E i w =
                 (Ok tt, world_of (sidebar E i w),
                  setup_events ++ trace_of (sidebar E i w) ++ recommendation_widgets)).
  { rewrite (recommendations_script_run E i w Hkey Hnav).
    rewrite page_recommendations_run, Hget. simpl when.
    cbn [result_of world_of trace_of fst snd]. rewrite app_nil_r. reflexivity. }
  split; [exact Hrun|].
  rewrite Hrun. cbn [trace_of snd]. rewrite !List.filter_app.
  rewrite (filter_sidebar is_open_file (trace_of (sidebar E i w)));
    [reflexivity | intros [] H; (discriminate || reflexivity) | apply sidebar_events].
Qed.

Lemma no_load_before_button_witness :
  script demo_env (demo_browsing Chagas ERMLP) (start ∅) =
  (Ok tt, world_of (sidebar demo_env (demo_browsing Chagas ERMLP) (start ∅)),
   setup_events ++ trace_of (sidebar demo_env (demo_browsing Chagas ERMLP) (start ∅))
   ++ recommendation_widgets) /\
  List.filter is_open_file
    (trace_of (script demo_env (demo_browsing Chagas ERMLP) (start ∅))) = [].
Proof.
  apply (no_load_before_button demo_env (demo_browsing Chagas ERMLP) (start ∅));
    reflexivity.
Defined.

Lemma getitem_measure_value (df : DataFrame) (j k : nat) :
  column_index "Measure" (columns df) = Some j ->
  column_index "Value" (columns df) = Some k ->
  getitem_columns df ["Measure"; "Value"] =
  Ok {| columns := ["Measure"; "Value"]; rows := map (project_row [j; k]) (rows df) |}.
Proof.
  intros Hj Hk. unfold getitem_columns. simpl. rewrite Hj, Hk. reflexivity.
Qed.




(** ** The metrics page and the help page *)

Lemma metrics_script_run (E : env) (i : inputs) (w : world) :
  has_api_key E ->
  nav i = ModelPerformanceMetrics ->
  script E i w =
  (result_of (page_metrics E (world_of (sidebar E i w))),
   world_of (page_metrics E (world_of (sidebar E i w))),
   setup_events ++ trace_of (sidebar E i w)
   ++ trace_of (page_metrics E (world_of (sidebar E i w)))).
Proof.
  intros Hkey Hnav. rewrite (script_run E i w Hkey).
  unfold active_page. rewrite Hnav. reflexivity.
Qed.

Lemma page_metrics_loaded (E : env) (txt : string) (w : world) :
  files E !! "embedding_models/performance_metrics.csv" = Some txt ->
  page_metrics E w =
  match parse_csv E ";" txt with
  | Raise e =>
      (Raise e, w,
       [Text ""; Text ""; OpenFile "embedding_models/performance_metrics.csv"])
  | Ok performance_file =>
      match plot_bar E performance_file "final_selection" "Value" with
      | Some e =>
          (Raise e, w,
           [Text ""; Text ""; OpenFile "embedding_models/performance_metrics.csv";
            metrics_heading; Dataframe performance_file])
      | None =>
          (Ok tt, w,
           [Text ""; Text ""; OpenFile "embedding_models/performance_metrics.csv";
            metrics_heading; Dataframe performance_file;
            Pyplot {| fig_data := performance_file;
                      fig_x := "final_selection"; fig_y := "Value";
                      fig_title := "Performance Metrics of Embedding Models";
                      fig_xlabel := "Embedding Model"; fig_ylabel := "Value" |}])
      end
  end.
Proof.
  intros Hfile. unfold page_metrics. rewrite !bind_emit.
  pose proof (pd_read_csv_present E _ ";" txt w Hfile) as Hread.
  destruct (parse_csv E ";" txt) as [performance_file|e].
  - rewrite (bind_ok _ _ _ _ _ _ Hread). rewrite !bind_emit.
    unfold plot_and_show.
    destruct (plot_bar E performance_file "final_selection" "Value"); reflexivity.
  - rewrite (bind_raise _ _ _ _ _ _ Hread). reflexivity.
Qed.

(** X10.  In the Model Performance Metrics mode, with the performance table
    in place and well formed, one execution shows the whole table, not
    filtered by any selection, and charts its [Value] column against
    [final_selection]; the only file it opens is the performance table. *)
Theorem metrics_page_shows_whole_table (E : env) (i : inputs) (w : world)
    (txt : string) (performance_file : DataFrame) :
  has_api_key E ->
  nav i = ModelPerformanceMetrics ->
  files E !! "embedding_models/performance_metrics.csv" = Some txt ->
  parse_csv E ";" txt = Ok performance_file ->
  plot_bar E performance_file "final_selection" "Value" = None ->
  script E i w =
  (Ok tt, world_of (sidebar E i w),
   setup_events ++ trace_of (sidebar E i w)
   ++ [Text ""; Text ""; OpenFile "embedding_models/performance_metrics.csv";
       metrics_heading; Dataframe performance_file;
       Pyplot {| fig_data := performance_file;
                 fig_x := "final_selection"; fig_y := "Value";
                 fig_title := "Performance Metrics of Embedding Models";
                 fig_xlabel := "Embedding Model"; fig_ylabel := "Value" |}]) /\
  List.filter is_open_file (trace_of (script E i w)) =
  [OpenFile "embedding_models/performance_metrics.csv"].
Proof.
  intros Hkey Hnav Hfile Hparse Hplot.
  rewrite (metrics_script_run E i w Hkey Hnav).
  rewrite (page_metrics_loaded E txt _ Hfile), Hparse, Hplot.
  cbn [result_of world_of trace_of fst snd]. split; [reflexivity|].
  rewrite !List.filter_app.
  rewrite (filter_sidebar is_open_file (trace_of (sidebar E i w)));
    [reflexivity | intros [] H; (discriminate || reflexivity) | apply sidebar_events].
Qed.

Lemma metrics_page_shows_whole_table_witness :
  script demo_env (demo_inputs ModelPerformanceMetrics "" Dengue TransE) (start ∅) =
  (Ok tt,
   world_of (sidebar demo_env (demo_inputs ModelPerformanceMetrics "" Dengue TransE)
               (start ∅)),
   setup_events
   ++ trace_of (sidebar demo_env (demo_inputs ModelPerformanceMetrics "" Dengue TransE)
                  (start ∅))
   ++ [Text ""; Text ""; OpenFile "embedding_models/performance_metrics.csv";
       metrics_heading; Dataframe demo_performance;
       Pyplot {| fig_data := demo_performance;
                 fig_x := "final_selection"; fig_y := "Value";
                 fig_title := "Performance Metrics of Embedding Models";
                 fig_xlabel := "Embedding Model"; fig_ylabel := "Value" |}]) /\
  List.filter is_open_file
    (trace_of (script demo_env (demo_inputs ModelPerformanceMetrics "" Dengue TransE)
                 (start ∅))) =
  [OpenFile "embedding_models/performance_metrics.csv"].
Proof.
  apply (metrics_page_shows_whole_table demo_env
           (demo_inputs ModelPerformanceMetrics "" Dengue TransE) (start ∅)
           "final_selection;Measure;Value" demo_performance); reflexivity.
Defined.

(** X11.  Nothing on the metrics page is guarded: when the performance
    table is absent the execution ends with [FileNotFoundError]; when the
    parser rejects the file it ends with the parser's exception before
    anything of the page but its spacing is drawn; when the plotter rejects
    the table it ends with the plotter's exception after the table has been
    shown and without a chart. *)
Theorem metrics_page_failures (E : env) (i : inputs) (w : world) :
  has_api_key E ->
  nav i = ModelPerformanceMetrics ->
  (files E !! "embedding_models/performance_metrics.csv" = None ->
   result_of (script E i w) =
   Raise (FileNotFoundError "embedding_models/performance_metrics.csv")) /\
  (forall txt e,
      files E !! "embedding_models/performance_metrics.csv" = Some txt ->
      parse_csv E ";" txt = Raise e ->
      script E i w =
      (Raise e, world_of (sidebar E i w),
       setup_events ++ trace_of (sidebar E i w)
       ++ [Text ""; Text ""; OpenFile "embedding_models/performance_metrics.csv"])) /\
  (forall txt performance_file e,
      files E !! "embedding_models/performance_metrics.csv" = Some txt ->
      parse_csv E ";" txt = Ok performance_file ->
      plot_bar E performance_file "final_selection" "Value" = Some e ->
      script E i w =
      (Raise e, world_of (sidebar E i w),
       setup_events ++ trace_of (sidebar E i w)
       ++ [Text ""; Text ""; OpenFile "embedding_models/performance_metrics.csv";
           metrics_heading; Dataframe performance_file])).
Proof.
  intros Hkey Hnav. rewrite (metrics_script_run E i w Hkey Hnav).
  repeat apply conj.
  - intros Hfile. cbn [result_of fst]. unfold page_metrics. rewrite !bind_emit.
    cbn [result_of fst].
    rewrite (bind_raise _ _ _ _ _ _ (pd_read_csv_absent E _ ";" _ Hfile)).
    reflexivity.
  - intros txt e Hfile Hparse.
    rewrite (page_metrics_loaded E txt _ Hfile), Hparse. reflexivity.
  - intros txt performance_file e Hfile Hparse Hplot.
    rewrite (page_metrics_loaded E txt _ Hfile), Hparse, Hplot. reflexivity.
Qed.

Lemma metrics_page_failures_witness :
  result_of (script (with_files ∅ demo_env)
               (demo_inputs ModelPerformanceMetrics "" Dengue TransE) (start ∅)) =
  Raise (FileNotFoundError "embedding_models/performance_metrics.csv") /\
  result_of (script (with_parse_csv rejecting_parser demo_env)
               (demo_inputs ModelPerformanceMetrics "" Dengue TransE) (start ∅)) =
  Raise (Exception "ParserError" "Error tokenizing data") /\
  result_of (script (with_plot_bar rejecting_plotter demo_env)
               (demo_inputs ModelPerformanceMetrics "" Dengue TransE) (start ∅)) =
  Raise (Exception "TypeError" "no numeric data to plot").
Proof.
  repeat apply conj.
  - apply (proj1 (metrics_page_failures (with_files ∅ demo_env)
                    (demo_inputs ModelPerformanceMetrics "" Dengue TransE) (start ∅)
                    eq_refl eq_refl)).
    reflexivity.
  - rewrite (proj1 (proj2 (metrics_page_failures
                             (with_parse_csv rejecting_parser demo_env)
                             (demo_inputs ModelPerformanceMetrics "" Dengue TransE)
                             (start ∅) eq_refl eq_refl))
               "final_selection;Measure;Value"
               (Exception "ParserError" "Error tokenizing data") eq_refl eq_refl).
    reflexivity.
  - rewrite (proj2 (proj2 (metrics_page_failures
                             (with_plot_bar rejecting_plotter demo_env)
                             (demo_inputs ModelPerformanceMetrics "" Dengue TransE)
                             (start ∅) eq_refl eq_refl))
               "final_selection;Measure;Value" demo_performance
               (Exception "TypeError" "no numeric data to plot")
               eq_refl eq_refl eq_refl).
    reflexivity.
Defined.

(** X12.  The Help mode depends on nothing outside the script: whatever the
    files and whatever the gateway does, the execution ends normally, opens
    no file and ends by drawing the help text. *)
Theorem help_page_completes (E : env) (i : inputs) (w : world) :
  has_api_key E ->
  nav i = Help ->
  script E i w =
  (Ok tt, world_of (sidebar E i w),
   setup_events ++ trace_of (sidebar E i w)
   ++ [Text ""; Text ""; Markdown HELP_MARKUP]) /\
  List.filter is_open_file (trace_of (script E i w)) = [].
Proof.
  intros Hkey Hnav.
  assert (Hrun : script E i w =
                 (Ok tt, world_of (sidebar E i w),
                  setup_events ++ trace_of (sidebar E i w)
                  ++ [Text ""; Text ""; Markdown HELP_MARKUP])).
  { rewrite (script_run E i w Hkey). unfold active_page. rewrite Hnav. reflexivity. }
  split; [exact Hrun|].
  rewrite Hrun. cbn [trace_of snd]. rewrite !List.filter_app.
  rewrite (filter_sidebar is_open_file (trace_of (sidebar E i w)));
    [reflexivity | intros [] H; (discriminate || reflexivity) | apply sidebar_events].
Qed.

Lemma help_page_completes_witness :
  script (with_files ∅ demo_env) (demo_inputs Help "boom" Dengue TransE) (start ∅) =
  (Ok tt,
   world_of (sidebar (with_files ∅ demo_env) (demo_inputs Help "boom" Dengue TransE)
               (start ∅)),
   setup_events
   ++ trace_of (sidebar (with_files ∅ demo_env) (demo_inputs Help "boom" Dengue TransE)
                  (start ∅))
   ++ [Text ""; Text ""; Markdown HELP_MARKUP]) /\
  List.filter is_open_file
    (trace_of (script (with_files ∅ demo_env) (demo_inputs Help "boom" Dengue TransE)
                 (start ∅))) = [].
Proof.
  apply (help_page_completes (with_files ∅ demo_env)
           (demo_inputs Help "boom" Dengue TransE) (start ∅)); reflexivity.
Defined.

(** ** The performance table *)

(** X13.  A performance table without the columns the page asks for ends
    lines 209-213 with [KeyError]: without [final_selection] the filter
    itself fails, right after the file is read; without [Measure] or [Value]
    the filter succeeds and the failure comes when the two columns are
    selected for display, after the heading has been drawn and before any
    table is shown. *)
Theorem missing_columns (E : env) (key txt : string) (df : DataFrame) (w : world) :
  files E !! "embedding_models/performance_metrics.csv" = Some txt ->
  parse_csv E ";" txt = Ok df ->
  (column_index "final_selection" (columns df) = None ->
   model_performance E key w =
   (Raise (KeyError "final_selection"), w,
    [OpenFile "embedding_models/performance_metrics.csv"])) /\
  (forall c,
      column_index "final_selection" (columns df) = Some c ->
      column_index "Measure" (columns df) = None \/
      column_index "Value" (columns df) = None ->
      exists e,
        exn_class e = "KeyError" /\
        model_performance E key w =
        (Raise e, w,
         [OpenFile "embedding_models/performance_metrics.csv";
          Markdown "<h3 style='text-align: center; color:#F63366; font-size:28px;'><b>Embedding Model Performance<b></h3>"])).
Proof.
  intros Hfile Hparse. split.
  - intros Hc. unfold model_performance.
    rewrite (bind_ok _ _ _ _ _ _
               (eq_trans (pd_read_csv_present E _ ";" _ w Hfile)
                         (f_equal (fun r => (r, w, [OpenFile _])) Hparse))).
    unfold lift at 1. unfold bind at 1.
    unfold performance_filter, getitem_column. rewrite Hc. reflexivity.
  - intros c Hc Hmissing.
    rewrite (model_performance_run E key txt df c w Hfile Hparse Hc).
    unfold getitem_columns. cbn [columns column_indices].
    destruct (column_index "Measure" (columns df)) as [j|] eqn:Hj.
    + destruct Hmissing as [H|H]; [discriminate|]. rewrite H.
      exists (KeyError "Value"). split; reflexivity.
    + exists (KeyError "Measure"). split; reflexivity.
Qed.

Lemma missing_columns_witness :
  model_performance (with_parse_csv (fun _ _ => Ok demo_performance_unkeyed) demo_env)
    "DengueTransE" (start ∅) =
  (Raise (KeyError "final_selection"), start ∅,
   [OpenFile "embedding_models/performance_metrics.csv"]) /\
  exists e,
    exn_class e = "KeyError" /\
    model_performance
      (with_parse_csv (fun _ _ => Ok demo_performance_unmeasured) demo_env)
      "DengueTransE" (start ∅) =
    (Raise e, start ∅,
     [OpenFile "embedding_models/performance_metrics.csv";
      Markdown "<h3 style='text-align: center; color:#F63366; font-size:28px;'><b>Embedding Model Performance<b></h3>"]).
Proof.
  split.
  - apply (proj1 (missing_columns
                    (with_parse_csv (fun _ _ => Ok demo_performance_unkeyed) demo_env)
                    "DengueTransE" "final_selection;Measure;Value"
                    demo_performance_unkeyed (start ∅) eq_refl eq_refl)).
    reflexivity.
  - apply (proj2 (missing_columns
                    (with_parse_csv (fun _ _ => Ok demo_performance_unmeasured) demo_env)
                    "DengueTransE" "final_selection;Measure;Value"
                    demo_performance_unmeasured (start ∅) eq_refl eq_refl) 0).
    + reflexivity.
    + left. reflexivity.
Defined.

Lemma filter_filter {A : Type} (f : A -> bool) (l : list A) :
  List.filter f (List.filter f l) = List.filter f l.
Proof.
  induction l as [|x l IH]; simpl; [reflexivity|].
  destruct (f x) eqn:Hx; simpl; [rewrite Hx, IH|]; auto.
Qed.

Lemma row_matches_other (c : nat) (key key' : string) (r : list cell) :
  key' <> key ->
  row_matches c key r = true ->
  row_matches c key' r = false.
Proof.
  unfold row_matches, cell_eq_str. intros Hne.
  destruct (nth c r NaN) as [s| |]; try discriminate.
  intros H. apply String.eqb_eq in H. subst s.
  apply String.eqb_neq. congruence.
Qed.

(** X14.  Filtering is idempotent and keys do not overlap: every row the
    filter returns carries the key, filtering the result again by the same
    key returns it unchanged, and filtering it by a different key returns
    no row.  The comparison is exact, so keys that differ only in case or
    spacing are different keys. *)
Theorem filter_twice (df out : DataFrame) (key key' : string) (c : nat) :
  column_index "final_selection" (columns df) = Some c ->
  performance_filter df key = Ok out ->
  Forall (fun r => row_matches c key r = true) (rows out) /\
  performance_filter out key = Ok out /\
  (key' <> key ->
   performance_filter out key' = Ok {| columns := columns df; rows := [] |}).
Proof.
  intros Hc Hout.
  rewrite (performance_filter_rows df key c Hc) in Hout.
  injection Hout as <-. cbn [rows columns].
  assert (Hall : Forall (fun r => row_matches c key r = true)
                        (List.filter (row_matches c key) (rows df))).
  { apply List.Forall_forall. intros r Hr.
    apply List.filter_In in Hr. tauto. }
  split; [exact Hall|]. split.
  - rewrite (performance_filter_rows
               {| columns := columns df;
                  rows := List.filter (row_matches c key) (rows df) |} key c Hc).
    cbn [rows columns]. rewrite filter_filter. reflexivity.
  - intros Hne.
    rewrite (performance_filter_rows
               {| columns := columns df;
                  rows := List.filter (row_matches c key) (rows df) |} key' c Hc).
    cbn [rows columns]. rewrite filter_none; [reflexivity|].
    eapply List.Forall_impl; [|exact Hall].
    intros r. apply row_matches_other. exact Hne.
Qed.

Lemma filter_twice_witness :
  Forall (fun r => row_matches 0 "DengueTransE" r = true)
         [[Str "DengueTransE"; Str "MRR"; Num (Qmake 1 2)];
          [Str "DengueTransE"; Str "Hits@10"; Num (Qmake 3 4)]] /\
  performance_filter
    {| columns := ["final_selection"; "Measure"; "Value"];
       rows := [[Str "DengueTransE"; Str "MRR"; Num (Qmake 1 2)];
                [Str "DengueTransE"; Str "Hits@10"; Num (Qmake 3 4)]] |}
    "DengueTransE" =
  Ok {| columns := ["final_selection"; "Measure"; "Value"];
        rows := [[Str "DengueTransE"; Str "MRR"; Num (Qmake 1 2)];
                 [Str "DengueTransE"; Str "Hits@10"; Num (Qmake 3 4)]] |} /\
  ("denguetranse" <> "DengueTransE" ->
   performance_filter
     {| columns := ["final_selection"; "Measure"; "Value"];
        rows := [[Str "DengueTransE"; Str "MRR"; Num (Qmake 1 2)];
                 [Str "DengueTransE"; Str "Hits@10"; Num (Qmake 3 4)]] |}
     "denguetranse" =
   Ok {| columns := columns demo_performance; rows := [] |}).
Proof.
  apply (filter_twice demo_performance
           {| columns := ["final_selection"; "Measure"; "Value"];
              rows := [[Str "DengueTransE"; Str "MRR"; Num (Qmake 1 2)];
                       [Str "DengueTransE"; Str "Hits@10"; Num (Qmake 3 4)]] |}
           "DengueTransE" "denguetranse" 0); reflexivity.
Defined.

(** ** The selections *)

(** X15.  Over the diseases and models the two select boxes offer, the
    composite key determines the selection: two selections with the same
    key are the same disease and the same model, so no two selections share
    a ranking file or a row of the performance table. *)
Theorem composite_key_injective (d d' : Disease) (m m' : EmbeddingModel) :
  final_selection (disease_name d) (model_name m) =
  final_selection (disease_name d') (model_name m') ->
  d = d' /\ m = m'.
Proof.
  intros H.
  destruct d, d'; cbv in H; try discriminate H;
    destruct m, m'; first [split; reflexivity | discriminate H].
Qed.

Lemma composite_key_injective_witness :
  YellowFever = YellowFever /\ DistMult = DistMult.
Proof.
  apply (composite_key_injective YellowFever YellowFever DistMult DistMult).
  reflexivity.
Defined.

(** ** Files *)

Section Paths.

Variable E : env.
Variable i : inputs.

#[local] Hint Resolve emits_only_open emits_only_file_read emits_only_pd_read_csv
  emits_only_download emits_only_plot : trace.
#[local] Hint Extern 1 (opens_only _ _) => simpl; tauto : trace.

Lemma page_opens_artifacts :
  emits_only (opens_only (artifact_paths i)) (active_page E i).
Proof.
  unfold active_page, page_recommendations, page_explore, page_metrics,
    page_help, recommendations, drug_recommendations, knowledge_graph,
    model_performance, p_title.
  destruct (nav i); cbv zeta; auto 40 with trace.
Qed.

Lemma sidebar_opens_nothing :
  emits_only (opens_only (artifact_paths i)) (sidebar E i).
Proof.
  intros w. eapply List.Forall_impl; [|apply sidebar_events].
  intros [] H; (discriminate || exact I).
Qed.

(** X16.  Every path the script passes to [open] or to [pd.read_csv] is
    that of the ranking table or of the graph document of the current
    selections, or that of the performance table: the paths are built from
    the select boxes alone, the sidebar makes no such call, and nothing typed
    into the chat box or returned by the gateway ends up in a path. *)
Theorem paths_come_from_selections (w : world) :
  Forall (opens_only (artifact_paths i)) (trace_of (script E i w)).
Proof.
  revert w. change (emits_only (opens_only (artifact_paths i)) (script E i)).
  unfold script.
  apply emits_only_bind; [apply emits_only_startup|]. intros _.
  apply emits_only_bind; [unfold page_setup; auto with trace|]. intros _.
  apply emits_only_bind; [apply sidebar_opens_nothing|]. intros _ w.
  rewrite dispatch. apply page_opens_artifacts.
Qed.

End Paths.

(** ** A chart that cannot be drawn *)

(** X17.  On the recommendations page the chart comes last and is not
    guarded: when everything loads but the plotter rejects the filtered rows,
    the execution ends with the plotter's exception, after the ranking table,
    both download buttons, the graph and the performance table of the
    selection have been drawn, and without a chart. *)
Theorem chart_failure_after_table (E : env) (i : inputs) (w : world)
    (txt gtxt ptxt : string) (ranking_file performance_file : DataFrame)
    (c j k : nat) (e : exn) :
  let disease := disease_name (disease_selection i) in
  let key := final_selection disease (model_name (model_selection i)) in
  let filtered_data :=
    {| columns := columns performance_file;
       rows := List.filter (row_matches c key) (rows performance_file) |} in
  has_api_key E ->
  nav i = GetDrugsRecommendations ->
  get_recommendations i = true ->
  files E !! ("embedding_models/" ++ key ++ ".csv")%string = Some txt ->
  parse_csv E "," txt = Ok ranking_file ->
  files E !! ("graphs/knowledge_graph_" ++ disease ++ ".html")%string = Some gtxt ->
  files E !! "embedding_models/performance_metrics.csv" = Some ptxt ->
  parse_csv E ";" ptxt = Ok performance_file ->
  column_index "final_selection" (columns performance_file) = Some c ->
  column_index "Measure" (columns performance_file) = Some j ->
  column_index "Value" (columns performance_file) = Some k ->
  plot_bar E filtered_data "Measure" "Value" = Some e ->
  result_of (script E i w) = Raise e /\
  In (ShowTable ranking_file) (trace_of (script E i w)) /\
  In (ComponentsHtml gtxt 625 750) (trace_of (script E i w)) /\
  In (Dataframe {| columns := ["Measure"; "Value"];
                   rows := map (project_row [j; k]) (rows filtered_data) |})
     (trace_of (script E i w)) /\
  List.length (List.filter is_download_button (trace_of (script E i w))) = 2 /\
  List.filter is_pyplot (trace_of (script E i w)) = [].
Proof.
  intros disease key filtered_data Hkey Hnav Hget Hcsv Hparse Hgraph Hperf Hpparse
         Hc Hj Hk Hplot.
  rewrite (recommendations_script_run E i w Hkey Hnav).
  rewrite page_recommendations_run, Hget. simpl when.
  fold disease. unfold recommendations. fold key. cbv zeta.
  rewrite (bind_ok _ _ _ _ _ _
             (drug_recommendations_present E key txt ranking_file _ Hcsv Hparse)).
  rewrite !bind_emit.
  rewrite (bind_ok _ _ _ _ _ _ (knowledge_graph_present E disease gtxt _ Hgraph)).
  set (w1 := set_open_files _ _).
  pose proof (model_performance_run E key ptxt performance_file c w1
                Hperf Hpparse Hc) as Hmodel.
  fold filtered_data in Hmodel.
  rewrite (getitem_measure_value filtered_data j k Hj Hk) in Hmodel.
  rewrite (bind_ok _ _ _ _ _ _ Hmodel).
  unfold plot_and_show. rewrite Hplot.
  cbn [result_of trace_of fst snd bind raise].
  split; [reflexivity|].
  rewrite !List.filter_app.
  rewrite (filter_sidebar is_download_button (trace_of (sidebar E i w)));
    [| intros [] H; (discriminate || reflexivity) | apply sidebar_events].
  rewrite (filter_sidebar is_pyplot (trace_of (sidebar E i w)));
    [| intros [] H; (discriminate || reflexivity) | apply sidebar_events].
  repeat split; try reflexivity;
    rewrite !in_app_iff; right; right; right; simpl; tauto.
Qed.

Lemma chart_failure_after_table_witness :
  result_of (script (with_plot_bar rejecting_plotter demo_env)
               (demo_inputs GetDrugsRecommendations "" Dengue TransE) (start ∅)) =
  Raise (Exception "TypeError" "no numeric data to plot") /\
  In (ShowTable demo_ranking)
     (trace_of (script (with_plot_bar rejecting_plotter demo_env)
                  (demo_inputs GetDrugsRecommendations "" Dengue TransE) (start ∅))) /\
  In (ComponentsHtml "<html>graph</html>" 625 750)
     (trace_of (script (with_plot_bar rejecting_plotter demo_env)
                  (demo_inputs GetDrugsRecommendations "" Dengue TransE) (start ∅))) /\
  In (Dataframe {| columns := ["Measure"; "Value"];
                   rows := [[Str "MRR"; Num (Qmake 1 2)];
                            [Str "Hits@10"; Num (Qmake 3 4)]] |})
     (trace_of (script (with_plot_bar rejecting_plotter demo_env)
                  (demo_inputs GetDrugsRecommendations "" Dengue TransE) (start ∅))) /\
  List.length
    (List.filter is_download_button
       (trace_of (script (with_plot_bar rejecting_plotter demo_env)
                    (demo_inputs GetDrugsRecommendations "" Dengue TransE)
                    (start ∅)))) = 2 /\
  List.filter is_pyplot
    (trace_of (script (with_plot_bar rejecting_plotter demo_env)
                 (demo_inputs GetDrugsRecommendations "" Dengue TransE) (start ∅))) = [].
Proof.
  apply (chart_failure_after_table (with_plot_bar rejecting_plotter demo_env)
           (demo_inputs GetDrugsRecommendations "" Dengue TransE) (start ∅)
           "drug,score,in_clinical_trials" "<html>graph</html>"
           "final_selection;Measure;Value" demo_ranking demo_performance 0 1 2
           (Exception "TypeError" "no numeric data to plot"));
    reflexivity.
Defined.
